(** * flaskr/blog.py: visibility and authorization of posts and comments

    A shallow embedding of the blog blueprint: the three tables it
    queries, the SQL statements it issues (as list programs over the
    tables), and its view functions [index], [get_post], [get_comment],
    [create], [post], [maybeNone], [update], [delete] and
    [deleteComment] in a state-and-exception monad. *)

From stdpp Require Import strings list gmap sorting.

Open Scope Z_scope.

(** ** Tables *)

(** [user(id, username, ...)]: the blueprint reads only these columns. *)
Record user_rec := User { u_id : Z; u_username : string }.

(** [post(id, title, body, visibility, created, author_id)];
    [visibility] is nullable, [None] is SQL NULL. *)
Record post_rec := Post {
  p_id : Z;
  p_title : string;
  p_body : string;
  p_visibility : option string;
  p_created : Z;
  p_author_id : Z
}.

(** [comment(id, title, body, created, post_id)]. *)
Record comment_rec := Comment {
  c_id : Z;
  c_title : string;
  c_body : string;
  c_created : Z;
  c_post_id : Z
}.

(** Each table is the list of its rows in the store's own row order. *)
Record database := Database {
  tbl_user : list user_rec;
  tbl_post : list post_rec;
  tbl_comment : list comment_rec
}.

(** A row of [post p JOIN user u]: every column of the post and the
    author's [username]. *)
Record post_row := PostRow { row_post : post_rec; row_username : string }.

(** A row of [comment c JOIN post p JOIN user u]. *)
Record comment_row := CommentRow {
  cr_comment : comment_rec;
  cr_post : post_rec;
  cr_username : string
}.

#[global] Instance user_rec_eq_dec : EqDecision user_rec.
Proof. solve_decision. Defined.
#[global] Instance post_rec_eq_dec : EqDecision post_rec.
Proof. solve_decision. Defined.
#[global] Instance comment_rec_eq_dec : EqDecision comment_rec.
Proof. solve_decision. Defined.
#[global] Instance database_eq_dec : EqDecision database.
Proof. solve_decision. Defined.
#[global] Instance post_row_eq_dec : EqDecision post_row.
Proof. solve_decision. Defined.

(** ** SQL fragments *)

(** Three-valued logic of a WHERE clause: [None] is SQL's unknown. *)
Definition sql_or (a b : option bool) : option bool :=
  match a, b with
  | Some true, _ | _, Some true => Some true
  | Some false, Some false => Some false
  | _, _ => None
  end.

Definition sql_and (a b : option bool) : option bool :=
  match a, b with
  | Some false, _ | _, Some false => Some false
  | Some true, Some true => Some true
  | _, _ => None
  end.

(** A row is kept when the clause evaluates to true. *)
Definition sql_holds (a : option bool) : bool :=
  match a with Some true => true | _ => false end.

Definition sql_is_null {A} (a : option A) : option bool :=
  Some (match a with None => true | Some _ => false end).

(** [ORDER BY key DESC]: a stable insertion sort; rows with equal keys
    keep the store's row order. *)
Fixpoint insert_desc {A} (key : A → Z) (x : A) (l : list A) : list A :=
  match l with
  | [] => [x]
  | y :: l' =>
      if bool_decide (key y ≤ key x) then x :: y :: l'
      else y :: insert_desc key x l'
  end.

Definition order_by_desc {A} (key : A → Z) (l : list A) : list A :=
  foldr (insert_desc key) [] l.

(** The rows that [JOIN user u ON p.author_id = u.id] makes of one post. *)
Definition author_rows (d : database) (p : post_rec) : list post_row :=
  u ← filter (λ u, p_author_id p = u_id u) (tbl_user d);
  [PostRow p (u_username u)].

(** [FROM post p JOIN user u ON p.author_id = u.id]. *)
Definition post_join_user (d : database) : list post_row :=
  p ← tbl_post d; author_rows d p.

(** The rows that [JOIN post p ON c.post_id = p.id JOIN user u ON
    p.author_id = u.id] makes of one comment. *)
Definition comment_rows (d : database) (c : comment_rec) : list comment_row :=
  p ← filter (λ p, c_post_id c = p_id p) (tbl_post d);
  u ← filter (λ u, p_author_id p = u_id u) (tbl_user d);
  [CommentRow c p (u_username u)].

(** [FROM comment c JOIN post p ON c.post_id = p.id
     JOIN user u ON p.author_id = u.id]. *)
Definition comment_join_post_user (d : database) : list comment_row :=
  c ← tbl_comment d; comment_rows d c.

(** The id the store gives a new row: one more than the largest id in
    the table, 1 in an empty table. *)
Definition next_id (ids : list Z) : Z := 1 + foldr Z.max 0 ids.

(** ** Requests, responses and the handler monad *)

Inductive http_method := GET | POST.

#[global] Instance http_method_eq_dec : EqDecision http_method.
Proof. solve_decision. Defined.

(** What a view reads from its surroundings: [g.user], [request.method],
    [request.form], and the clock behind [CURRENT_TIMESTAMP]. *)
Record request := Request {
  g_user : option user_rec;
  req_method : http_method;
  req_form : gmap string string;
  req_now : Z
}.

Inductive endpoint :=
| blog_index
| blog_post (id : Z)
| auth_login.

Inductive page :=
| index_html (posts : list post_row)
| create_html (users : list user_rec)
| post_html (post : post_row) (comments : list comment_rec)
| update_html (post : post_row) (users : list user_rec).

Inductive response :=
| render_template (p : page)
| redirect (e : endpoint).

(** Exceptions that leave a view: [abort(code)] (the description text is
    not kept), a missing form key, subscripting [None], and a failure
    inside the HTML cleaner. *)
Inductive exn :=
| HTTPException (code : Z)
| BadRequestKeyError (key : string)
| TypeError
| CleanerError.

Inductive result (A : Type) :=
| Return (a : A)
| Raise (e : exn).
Arguments Return {A} a.
Arguments Raise {A} e.

(** The committed database and the messages flashed so far. *)
Record state := State { st_db : database; st_flashes : list string }.

Definition M (A : Type) : Type := state → result A * state.

#[global] Instance M_ret : MRet M := λ A a s, (Return a, s).

#[global] Instance M_bind : MBind M := λ A B k m s,
  match m s with
  | (Return a, s') => k a s'
  | (Raise e, s') => (Raise e, s')
  end.

Definition raise {A} (e : exn) : M A := λ s, (Raise e, s).

Definition abort {A} (code : Z) : M A := raise (HTTPException code).

Definition get_db : M database := λ s, (Return (st_db s), s).

(** [db.execute(<write>); db.commit()]. *)
Definition execute_commit (f : database → database) : M unit :=
  λ s, (Return (), State (f (st_db s)) (st_flashes s)).

Definition flash (msg : string) : M unit :=
  λ s, (Return (), State (st_db s) (st_flashes s ++ [msg])).

(** [request.form[key]]. *)
Definition form_get (rq : request) (key : string) : M string :=
  match req_form rq !! key with
  | Some v => mret v
  | None => raise (BadRequestKeyError key)
  end.

(** [g.user['id']]: subscripting [None] is a [TypeError]. *)
Definition g_user_id (rq : request) : M Z :=
  match g_user rq with
  | Some u => mret (u_id u)
  | None => raise TypeError
  end.

(** [post['id']] on the result of [fetchone()]. *)
Definition row_id (r : option post_row) : M Z :=
  match r with
  | Some r => mret (p_id (row_post r))
  | None => raise TypeError
  end.

Definition title_required : string := "عنوان لازم است.".

(** [maybeNone]. *)
Definition maybeNone (s : string) : option string :=
  if bool_decide (s = "NULL") then None else Some s.

(** [SELECT id, username FROM user ORDER BY id DESC]. *)
Definition select_users (d : database) : list user_rec :=
  order_by_desc u_id (tbl_user d).

(** [SELECT id, title, body, created, post_id FROM comment
     WHERE post_id = ? ORDER BY created DESC]. *)
Definition select_comments (d : database) (post_id : Z) : list comment_rec :=
  order_by_desc c_created (filter (λ c, c_post_id c = post_id) (tbl_comment d)).

(** [INSERT INTO post (title, body, visibility, author_id)]; [id] and
    [created] are filled in by the store. *)
Definition insert_post (title body : string) (visibility : option string)
    (author_id now : Z) (d : database) : database :=
  Database (tbl_user d)
    (tbl_post d ++
       [Post (next_id (p_id <$> tbl_post d)) title body visibility now author_id])
    (tbl_comment d).

(** [INSERT INTO comment (title, body, post_id)]. *)
Definition insert_comment (title body : string) (post_id now : Z)
    (d : database) : database :=
  Database (tbl_user d) (tbl_post d)
    (tbl_comment d ++
       [Comment (next_id (c_id <$> tbl_comment d)) title body now post_id]).

(** [UPDATE post SET title = ?, body = ?, visibility = ? WHERE id = ?]. *)
Definition update_post (title body : string) (visibility : option string)
    (id : Z) (d : database) : database :=
  Database (tbl_user d)
    ((λ p, if bool_decide (p_id p = id)
           then Post (p_id p) title body visibility (p_created p) (p_author_id p)
           else p) <$> tbl_post d)
    (tbl_comment d).

(** [DELETE FROM comment WHERE id = ?]. *)
Definition delete_comment (id : Z) (d : database) : database :=
  Database (tbl_user d) (tbl_post d)
    (filter (λ c, c_id c ≠ id) (tbl_comment d)).

(** [if g.user:] *)
Definition truthy {A} (o : option A) : bool :=
  match o with Some _ => true | None => false end.

(** Modelled from the spec: [login_required] of flaskr/auth.py, which is
    not part of these sources. "Requires authenticated viewer (else
    AuthorizationError, surfaced as redirect-to-login by caller)": with
    no user the view is not run and the answer is the redirect to the
    login page; with a user the view runs. *)
Definition login_required (view : request → M response) (rq : request)
    : M response :=
  match g_user rq with
  | None => mret (redirect auth_login)
  | Some _ => view rq
  end.

(** The spec's error taxonomy, read off an outcome: [abort(404)],
    [abort(403)] or the login redirect. (A validation error is the
    flashed message, see [validation_error].) *)
Inductive error_class := NotFoundError | AuthorizationError.

Definition error_of (r : result response) : option error_class :=
  match r with
  | Raise (HTTPException 404) => Some NotFoundError
  | Raise (HTTPException 403) => Some AuthorizationError
  | Return (redirect auth_login) => Some AuthorizationError
  | _ => None
  end.

(** ValidationError: the message is flashed, nothing is written, and a
    form is rendered again. *)
Definition validation_error (s : state) (out : result response * state) : Prop :=
  ∃ pg, out = (Return (render_template pg),
               State (st_db s) (st_flashes s ++ [title_required])).

Section Blog.

(** [lxml.html.clean.clean_html], an outside library: the cleaned
    markup, or [None] when the cleaner raises on its input. *)
Variable clean_html : string → option string.

(** The store's [visibility = ?] between a non-null stored visibility
    and a user id. Its outcome on a given text depends on the type the
    schema declares for the column, and schema.sql is not part of
    these sources, so it is a parameter. *)
Variable vis_eq : string → Z → bool.

(** Modelled from the spec: whether deleting a post row also deletes
    the comment rows that refer to it. This is decided by the foreign
    key of [comment.post_id] in schema.sql, which is not part of these
    sources; the spec says "deletion cascades to its comments". *)
Variable on_delete_cascade : bool.

Definition clean (raw : string) : M string :=
  match clean_html raw with
  | Some b => mret b
  | None => raise CleanerError
  end.

(** [visibility = ?]: unknown on a NULL visibility. *)
Definition visibility_eq (p : post_rec) (uid : Z) : option bool :=
  (λ s, vis_eq s uid) <$> p_visibility p.

(** [visibility IS NULL OR visibility = ? or author_id = ?]. *)
Definition where_user (uid : Z) (p : post_rec) : option bool :=
  sql_or (sql_or (sql_is_null (p_visibility p)) (visibility_eq p uid))
         (Some (bool_decide (p_author_id p = uid))).

(** [visibility IS NULL]. *)
Definition where_anonymous (p : post_rec) : option bool :=
  sql_is_null (p_visibility p).

Definition by_created (r : post_row) : Z := p_created (row_post r).

(** [DELETE FROM post WHERE id = ?]. *)
Definition delete_post (id : Z) (d : database) : database :=
  Database (tbl_user d)
    (filter (λ p, p_id p ≠ id) (tbl_post d))
    (if on_delete_cascade
     then filter (λ c, c_post_id c ≠ id) (tbl_comment d)
     else tbl_comment d).

(** ** The views *)

Definition index (rq : request) : M response :=
  db ← get_db;
  posts ← (if truthy (g_user rq) then
             uid ← g_user_id rq;
             mret (order_by_desc by_created
                     (filter (λ r, sql_holds (where_user uid (row_post r)))
                             (post_join_user db)))
           else
             mret (order_by_desc by_created
                     (filter (λ r, sql_holds (where_anonymous (row_post r)))
                             (post_join_user db))));
  mret (render_template (index_html posts)).

Definition get_post (rq : request) (id : Z) (check_author : bool)
    : M post_row :=
  db ← get_db;
  match head (filter (λ r, p_id (row_post r) = id) (post_join_user db)) with
  | None => abort 404
  | Some post =>
      if check_author then
        uid ← g_user_id rq;
        if bool_decide (p_author_id (row_post post) ≠ uid) then abort 403
        else mret post
      else mret post
  end.

Definition get_comment (rq : request) (id : Z) (check_author : bool)
    : M comment_row :=
  db ← get_db;
  match head (filter (λ r, c_id (cr_comment r) = id)
                     (comment_join_post_user db)) with
  | None => abort 404
  | Some comment =>
      if check_author then
        uid ← g_user_id rq;
        if bool_decide (p_author_id (cr_post comment) ≠ uid) then abort 403
        else mret comment
      else mret comment
  end.

(** [error = None; if not title: error = '...'] *)
Definition check_title (title : string) : option string :=
  if bool_decide (title = "") then Some title_required else None.

(** A view body that either returns early with a response ([Some]) or
    falls through to the code after it ([None]). *)
Definition create (rq : request) : M response :=
  login_required (λ rq,
    early ← (if bool_decide (req_method rq = POST) then
               title ← form_get rq "title";
               raw ← form_get rq "body";
               body ← clean raw;
               visibility ← form_get rq "visibility";
               match check_title title with
               | Some error => flash error;; mret None
               | None =>
                   uid ← g_user_id rq;
                   execute_commit
                     (insert_post title body (maybeNone visibility) uid
                                  (req_now rq));;
                   mret (Some (redirect blog_index))
               end
             else mret None);
    match early with
    | Some resp => mret resp
    | None =>
        db ← get_db;
        mret (render_template (create_html (select_users db)))
    end) rq.

Definition post (rq : request) (id : Z) : M response :=
  db ← get_db;
  post ← (if truthy (g_user rq) then
            uid ← g_user_id rq;
            mret (head (order_by_desc by_created
                    (filter (λ r, sql_holds
                               (sql_and (where_user uid (row_post r))
                                  (Some (bool_decide (p_id (row_post r) = id)))))
                            (post_join_user db))))
          else
            mret (head (order_by_desc by_created
                    (filter (λ r, sql_holds
                               (sql_and (where_anonymous (row_post r))
                                  (Some (bool_decide (p_id (row_post r) = id)))))
                            (post_join_user db)))));
  if bool_decide (req_method rq = POST) then
    title ← form_get rq "title";
    body ← form_get rq "body";
    match check_title title with
    | Some error => flash error
    | None =>
        pid ← row_id post;
        execute_commit (insert_comment title body pid (req_now rq))
    end;;
    pid ← row_id post;
    mret (redirect (blog_post pid))
  else
    pid ← row_id post;
    match post with
    | Some p => mret (render_template (post_html p (select_comments db pid)))
    | None => raise TypeError
    end.

Definition update (rq : request) (id : Z) : M response :=
  login_required (λ rq,
    post ← get_post rq id true;
    early ← (if bool_decide (req_method rq = POST) then
               title ← form_get rq "title";
               body ← form_get rq "body";
               visibility ← form_get rq "visibility";
               match check_title title with
               | Some error => flash error;; mret None
               | None =>
                   execute_commit
                     (update_post title body (maybeNone visibility) id);;
                   mret (Some (redirect blog_index))
               end
             else mret None);
    match early with
    | Some resp => mret resp
    | None =>
        db ← get_db;
        mret (render_template (update_html post (select_users db)))
    end) rq.

Definition delete (rq : request) (id : Z) : M response :=
  login_required (λ rq,
    get_post rq id true;;
    execute_commit (delete_post id);;
    mret (redirect blog_index)) rq.

Definition deleteComment (rq : request) (id : Z) : M response :=
  login_required (λ rq,
    comment ← get_comment rq id true;
    let url_for_post := blog_post (c_post_id (cr_comment comment)) in
    execute_commit (delete_comment id);;
    mret (redirect url_for_post)) rq.

End Blog.

(** ** The schema's key constraints *)

(** [id] is the primary key of each table. *)
Record primary_keys (d : database) : Prop := PrimaryKeys {
  user_pk : NoDup (u_id <$> tbl_user d);
  post_pk : NoDup (p_id <$> tbl_post d);
  comment_pk : NoDup (c_id <$> tbl_comment d)
}.

(** [post.author_id] refers to a row of [user]. *)
Definition authors_exist (d : database) : Prop :=
  Forall (λ p, p_author_id p ∈ u_id <$> tbl_user d) (tbl_post d).

(** The viewer may see the post: it is public, or its visibility equals
    the viewer's id, or the viewer wrote it. *)
Definition visible_to (vis_eq : string → Z → bool) (viewer : option user_rec)
    (p : post_rec) : Prop :=
  match viewer with
  | None => p_visibility p = None
  | Some v =>
      p_visibility p = None
      ∨ visibility_eq vis_eq p (u_id v) = Some true
      ∨ p_author_id p = u_id v
  end.

#[global] Instance visible_to_dec vis_eq viewer p :
  Decision (visible_to vis_eq viewer p).
Proof. destruct viewer; simpl; apply _. Defined.

(** The row the SELECT of the single-post view fetches: the first, in
    newest-first order, of the rows with the given id that are visible
    to the viewer. *)
Definition visible_row (vis_eq : string → Z → bool) (viewer : option user_rec)
    (id : Z) (d : database) : option post_row :=
  head (order_by_desc by_created
          (filter (λ r, visible_to vis_eq viewer (row_post r)
                        ∧ p_id (row_post r) = id)
                  (post_join_user d))).

(** What a viewer who may not change a post gets from [update] and
    [delete]: [abort(403)] when logged in, the login redirect when not. *)
Definition denied (viewer : option user_rec) : result response :=
  match viewer with
  | Some _ => Raise (HTTPException 403)
  | None => Return (redirect auth_login)
  end.

(** The comment with this id is there, and so are its post and that
    post's author. *)
Definition comment_resolves (d : database) (id : Z) : Prop :=
  ∃ c p u, c ∈ tbl_comment d ∧ c_id c = id
           ∧ p ∈ tbl_post d ∧ p_id p = c_post_id c
           ∧ u ∈ tbl_user d ∧ u_id u = p_author_id p.

(** A stored visibility is equal to at most one user id. *)
Definition vis_eq_functional (vis_eq : string → Z → bool) : Prop :=
  ∀ t a b, vis_eq t a = true → vis_eq t b = true → a = b.

(** Newest first. *)
Definition newer_first {A} (key : A → Z) (a b : A) : Prop := key b ≤ key a.

(** ** Sample data

    A concrete store's comparison for a text column ([vis_eq]: the
    stored text is the decimal form of the id), a cleaner that rejects
    the empty document, three users and a small database. *)

Definition sample_vis_eq (t : string) (uid : Z) : bool :=
  bool_decide (t = pretty.pretty uid).

Definition sample_clean_html (raw : string) : option string :=
  if bool_decide (raw = "") then None else Some ("<p>" +:+ raw +:+ "</p>").

Definition alice : user_rec := User 1 "alice".
Definition bob : user_rec := User 2 "bob".
Definition carol : user_rec := User 3 "carol".

(** alice wrote a public post, a post for herself and a post for bob;
    the first two have a comment. *)
Definition sample_db : database :=
  Database [alice; bob; carol]
    [Post 1 "public" "b1" None 10 1;
     Post 2 "private" "b2" (Some "1") 20 1;
     Post 3 "for bob" "b3" (Some "2") 30 1]
    [Comment 1 "c1" "x" 15 1; Comment 2 "c2" "y" 25 2].

(** A database with a comment whose post is gone (comment 3) and a post
    whose author is gone (post 4, with comment 4). *)
Definition orphan_db : database :=
  Database [alice; bob; carol]
    [Post 1 "public" "b1" None 10 1; Post 4 "ghost" "b4" None 40 9]
    [Comment 1 "c1" "x" 15 1; Comment 3 "c3" "z" 17 7; Comment 4 "c4" "w" 45 4].

Definition sample_state : state := State sample_db [].

(** ** What a request can write *)

(** The effect of one request on the database: nothing, or one of the
    five statements the views execute. An INSERT or UPDATE of a post
    carries a non-empty title and a visibility that went through
    [maybeNone]; an inserted post has the viewer as its author. *)
Inductive one_write (cascade : bool) (rq : request) (d : database)
    : database → Prop :=
| write_nothing : one_write cascade rq d d
| write_insert_post v title body vis :
    g_user rq = Some v → title ≠ "" →
    one_write cascade rq d
      (insert_post title body (maybeNone vis) (u_id v) (req_now rq) d)
| write_insert_comment title body post_id :
    title ≠ "" →
    one_write cascade rq d (insert_comment title body post_id (req_now rq) d)
| write_update_post title body vis id :
    title ≠ "" →
    one_write cascade rq d (update_post title body (maybeNone vis) id d)
| write_delete_post id : one_write cascade rq d (delete_post cascade id d)
| write_delete_comment id : one_write cascade rq d (delete_comment id d).

(** No stored post has the text "NULL" as its visibility. *)
Definition no_literal_null (d : database) : Prop :=
  Forall (λ p, p_visibility p ≠ Some "NULL") (tbl_post d).

(** The viewer of the request, when there is one, is a stored user. *)
Definition viewer_stored (rq : request) (d : database) : Prop :=
  ∀ v, g_user rq = Some v → u_id v ∈ u_id <$> tbl_user d.

(** The outcome of a view has a database with the schema's keys. *)
Definition keys_kept (out : result response * state) : Prop :=
  primary_keys (st_db out.2) ∧ authors_exist (st_db out.2).

(** An integer the store takes as a query parameter: a signed 64-bit
    integer. The sqlite3 module raises OverflowError when a larger
    Python int is bound, before the statement runs; the views are not
    modelled on such ids, and the properties that speak of an id that
    is not stored are stated for ids in this range. *)
Definition sqlite_integer (n : Z) : Prop := - 2 ^ 63 ≤ n < 2 ^ 63.

(** * Properties *)

(** Case analysis on membership in a concrete table. *)
Ltac stored_rows H :=
  simpl in H;
  repeat (apply elem_of_cons in H as [->|H]);
  try (by apply elem_of_nil in H).


(** ** ORDER BY *)

Section OrderBy.
Context {A : Type} (key : A → Z).

Lemma insert_desc_perm x l : insert_desc key x l ≡ₚ x :: l.
Proof.
  induction l as [|y l IH]; simpl; [done|].
  case_bool_decide; [done|].
  rewrite IH. apply Permutation_swap.
Qed.

Lemma order_by_desc_perm l : order_by_desc key l ≡ₚ l.
Proof.
  induction l as [|x l IH]; simpl; [done|].
  fold (order_by_desc key l). by rewrite insert_desc_perm, IH.
Qed.

Lemma elem_of_order_by_desc x l : x ∈ order_by_desc key l ↔ x ∈ l.
Proof. by rewrite order_by_desc_perm. Qed.

Lemma order_by_desc_nil l : order_by_desc key l = [] ↔ l = [].
Proof.
  split; [|by intros ->].
  intros E. apply Permutation_nil_r. by rewrite <- E, order_by_desc_perm.
Qed.

Lemma insert_desc_sorted x l :
  StronglySorted (newer_first key) l →
  StronglySorted (newer_first key) (insert_desc key x l).
Proof.
  induction 1 as [|y l Hl IH Hy]; simpl.
  - repeat constructor.
  - case_bool_decide as Hle.
    + constructor; [by constructor|].
      constructor; [done|].
      eapply Forall_impl; [exact Hy|].
      unfold newer_first. intros z Hz. lia.
    + constructor; [done|].
      rewrite insert_desc_perm. constructor; [|done].
      unfold newer_first. lia.
Qed.

Lemma order_by_desc_sorted l :
  StronglySorted (newer_first key) (order_by_desc key l).
Proof.
  induction l as [|x l IH]; simpl; [constructor|].
  by apply insert_desc_sorted.
Qed.

(** The first row of a sorted result is a row of the input. *)
Lemma head_order_by_desc_elem l x :
  head (order_by_desc key l) = Some x → x ∈ l.
Proof.
  intros H. apply elem_of_order_by_desc.
  destruct (order_by_desc key l); simplify_eq/=. left.
Qed.

Lemma order_by_desc_singleton x : order_by_desc key [x] = [x].
Proof. done. Qed.
End OrderBy.

(** ** Filters and joins *)

Section Filter.
Context {A : Type}.

Lemma filter_all (P : A → Prop) `{!∀ a, Decision (P a)} (l : list A) :
  Forall P l → filter P l = l.
Proof.
  induction 1 as [|x l Hx _ IH]; [done|].
  by rewrite filter_cons_True, IH.
Qed.

Lemma filter_none (P : A → Prop) `{!∀ a, Decision (P a)} (l : list A) :
  Forall (λ a, ¬ P a) l → filter P l = [].
Proof.
  induction 1 as [|x l Hx _ IH]; [done|].
  by rewrite filter_cons_False.
Qed.

Lemma filter_ext_elem (P Q : A → Prop)
    `{!∀ a, Decision (P a)} `{!∀ a, Decision (Q a)} (l : list A) :
  (∀ a, a ∈ l → P a ↔ Q a) → filter P l = filter Q l.
Proof.
  induction l as [|x l IH]; intros HPQ; [done|].
  rewrite !filter_cons.
  rewrite IH by (intros a Ha; apply HPQ; by right).
  pose proof (HPQ x (list_elem_of_here _ _)) as Hx.
  destruct (decide (P x)), (decide (Q x)); tauto.
Qed.

(** Looking a key up in a table where it is unique finds one row. *)
Lemma filter_key_unique (f : A → Z) (l : list A) x :
  NoDup (f <$> l) → x ∈ l → filter (λ y, f y = f x) l = [x].
Proof.
  induction l as [|y l IH]; intros Hnd Hx; [by apply elem_of_nil in Hx|].
  rewrite fmap_cons in Hnd. apply NoDup_cons in Hnd as [Hy Hnd].
  apply elem_of_cons in Hx as [->|Hx].
  - rewrite filter_cons_True by done. f_equal.
    apply filter_none, Forall_forall. intros z Hz E.
    apply Hy. rewrite <- E. by apply list_elem_of_fmap_2.
  - rewrite filter_cons_False; [by apply IH|].
    intros E. apply Hy. rewrite E. by apply list_elem_of_fmap_2.
Qed.

Lemma filter_key_absent (f : A → Z) (l : list A) k :
  k ∉ f <$> l → filter (λ y, f y = k) l = [].
Proof.
  intros Hk. apply filter_none, Forall_forall. intros y Hy E.
  apply Hk. rewrite <- E. by apply list_elem_of_fmap_2.
Qed.
End Filter.

Section Join.
Context {A B : Type}.

(** A WHERE clause that only looks at the outer table of a join can be
    applied before joining. *)
Lemma filter_bind_outer (P : B → Prop) (Q : A → Prop)
    `{!∀ b, Decision (P b)} `{!∀ a, Decision (Q a)} (f : A → list B) (l : list A) :
  (∀ a b, a ∈ l → b ∈ f a → P b ↔ Q a) →
  filter P (l ≫= f) = filter Q l ≫= f.
Proof.
  induction l as [|x l IH]; intros HPQ; [done|].
  rewrite bind_cons, filter_app, filter_cons.
  rewrite IH by (intros a b Ha; apply HPQ; by right).
  destruct (decide (Q x)) as [HQ|HQ].
  - rewrite bind_cons. f_equal. apply filter_all, Forall_forall.
    intros b Hb. apply (HPQ x b); [left|done|done].
  - rewrite filter_none; [done|]. apply Forall_forall.
    intros b Hb HP. apply HQ, (HPQ x b); [left|done|done].
Qed.
End Join.

(** ** Running a view *)

Lemma run_bind {A B} (m : M A) (k : A → M B) s :
  (m ≫= k) s =
  match m s with
  | (Return a, s') => k a s'
  | (Raise e, s') => (Raise e, s')
  end.
Proof. done. Qed.

Lemma run_ret {A} (a : A) s : (mret a : M A) s = (Return a, s).
Proof. done. Qed.

Lemma run_form_get rq key v s :
  req_form rq !! key = Some v → form_get rq key s = (Return v, s).
Proof. unfold form_get. by intros ->. Qed.

Lemma run_g_user_id rq v s :
  g_user rq = Some v → g_user_id rq s = (Return (u_id v), s).
Proof. unfold g_user_id. by intros ->. Qed.

Lemma run_login_required view rq v s :
  g_user rq = Some v → login_required view rq s = view rq s.
Proof. unfold login_required. by intros ->. Qed.

Lemma run_login_required_anonymous view rq s :
  g_user rq = None →
  login_required view rq s = (Return (redirect auth_login), s).
Proof. unfold login_required. by intros ->. Qed.

Lemma state_eta s : State (st_db s) (st_flashes s) = s.
Proof. by destruct s. Qed.

(** ** The post-author join *)

Section JoinAuthor.
Variable d : database.

Lemma post_join_user_eq : post_join_user d = tbl_post d ≫= author_rows d.
Proof. done. Qed.

Lemma author_rows_row_post p r : r ∈ author_rows d p → row_post r = p.
Proof.
  unfold author_rows. rewrite list_elem_of_bind.
  intros (u & Hr & _). by apply list_elem_of_singleton in Hr as ->.
Qed.

Lemma author_rows_author p r :
  r ∈ author_rows d p →
  ∃ u, u ∈ tbl_user d ∧ u_id u = p_author_id p ∧ r = PostRow p (u_username u).
Proof.
  unfold author_rows. rewrite list_elem_of_bind.
  intros (u & Hr & Hu). apply list_elem_of_singleton in Hr as ->.
  apply list_elem_of_filter in Hu as [E Hu]. eauto.
Qed.

(** With [user.id] a key and the author present, a post has exactly
    one joined row. *)
Lemma author_rows_singleton p :
  NoDup (u_id <$> tbl_user d) →
  p_author_id p ∈ u_id <$> tbl_user d →
  ∃ u, u ∈ tbl_user d ∧ u_id u = p_author_id p
       ∧ author_rows d p = [PostRow p (u_username u)].
Proof.
  intros Hnd Hin. apply list_elem_of_fmap in Hin as (u & E & Hu).
  exists u. split_and!; [done|done|].
  unfold author_rows.
  rewrite (filter_ext_elem _ (λ y, u_id y = u_id u)).
  - by rewrite filter_key_unique.
  - intros y _. rewrite E. split; congruence.
Qed.

Lemma author_rows_absent p :
  p_author_id p ∉ u_id <$> tbl_user d → author_rows d p = [].
Proof.
  intros Hin. unfold author_rows.
  rewrite (filter_ext_elem _ (λ y, u_id y = p_author_id p)).
  - by rewrite filter_key_absent.
  - intros y _. split; congruence.
Qed.

(** A WHERE clause over post columns commutes with the join. *)
Lemma where_post_join (W : post_rec → Prop) (W' : post_row → Prop)
    `{!∀ p, Decision (W p)} `{!∀ r, Decision (W' r)} :
  (∀ r, W' r ↔ W (row_post r)) →
  filter W' (post_join_user d) = filter W (tbl_post d) ≫= author_rows d.
Proof.
  intros HW. rewrite post_join_user_eq. apply filter_bind_outer.
  intros p r _ Hr. by rewrite HW, (author_rows_row_post p r Hr).
Qed.

Lemma row_post_join (l : list post_rec) :
  NoDup (u_id <$> tbl_user d) →
  Forall (λ p, p_author_id p ∈ u_id <$> tbl_user d) l →
  row_post <$> (l ≫= author_rows d) = l.
Proof.
  intros Hnd. induction 1 as [|p l Hp _ IH]; [done|].
  rewrite bind_cons, fmap_app, IH.
  destruct (author_rows_singleton p Hnd Hp) as (u & _ & _ & ->). done.
Qed.

(** Under the key constraints, fetching by id finds the post's row. *)
Lemma fetch_by_id P :
  primary_keys d → authors_exist d → P ∈ tbl_post d →
  ∃ u, u ∈ tbl_user d ∧ u_id u = p_author_id P
       ∧ filter (λ r, p_id (row_post r) = p_id P) (post_join_user d)
         = [PostRow P (u_username u)].
Proof.
  intros [Hu Hp _] Ha HP.
  pose proof (proj1 (Forall_forall _ _) Ha P HP) as HaP.
  destruct (author_rows_singleton P Hu HaP) as (u & Hin & E & Hrows).
  exists u. split_and!; [done|done|].
  rewrite (where_post_join (λ p, p_id p = p_id P)
             (λ r, p_id (row_post r) = p_id P)) by done.
  rewrite filter_key_unique by done.
  by rewrite bind_singleton.
Qed.
End JoinAuthor.

(** ** The sample data is well-formed *)

Lemma sample_db_primary_keys : primary_keys sample_db.
Proof. split; by apply (bool_decide_unpack _). Qed.

Lemma sample_db_authors_exist : authors_exist sample_db.
Proof. by apply (bool_decide_unpack _). Qed.

Lemma sample_vis_eq_functional : vis_eq_functional sample_vis_eq.
Proof.
  intros t a b Ha Hb. unfold sample_vis_eq in *.
  apply bool_decide_eq_true in Ha, Hb. subst t.
  by apply (inj pretty.pretty).
Qed.

(** ** The WHERE clauses say "visible to the viewer" *)

Section Visibility.
Variable vis_eq : string → Z → bool.

Lemma where_user_visible v p :
  sql_holds (where_user vis_eq (u_id v) p) ↔ visible_to vis_eq (Some v) p.
Proof.
  unfold where_user, visible_to, visibility_eq.
  destruct (p_visibility p) as [t|]; simpl.
  - destruct (vis_eq t (u_id v)), (decide (p_author_id p = u_id v)) as [E|E];
      rewrite ?(bool_decide_eq_true_2 _ E), ?(bool_decide_eq_false_2 _ E);
      simpl; intuition congruence.
  - destruct (decide (p_author_id p = u_id v)) as [E|E];
      rewrite ?(bool_decide_eq_true_2 _ E), ?(bool_decide_eq_false_2 _ E);
      simpl; intuition congruence.
Qed.

Lemma where_anonymous_visible p :
  sql_holds (where_anonymous p) ↔ visible_to vis_eq None p.
Proof.
  unfold where_anonymous, visible_to.
  destruct (p_visibility p); simpl; intuition congruence.
Qed.

(** The two SELECTs of [index] and [post] as one: the rows a viewer's
    WHERE clause keeps. *)
Lemma select_visible viewer d :
  filter (λ r, visible_to vis_eq viewer (row_post r)) (post_join_user d)
  = match viewer with
    | Some v =>
        filter (λ r, sql_holds (where_user vis_eq (u_id v) (row_post r)))
               (post_join_user d)
    | None =>
        filter (λ r, sql_holds (where_anonymous (row_post r)))
               (post_join_user d)
    end.
Proof.
  destruct viewer as [v|]; apply filter_ext_elem; intros r _.
  - by rewrite where_user_visible.
  - by rewrite where_anonymous_visible.
Qed.

Lemma run_index rq s :
  index vis_eq rq s
  = (Return (render_template (index_html
       (order_by_desc by_created
          (filter (λ r, visible_to vis_eq (g_user rq) (row_post r))
                  (post_join_user (st_db s)))))), s).
Proof.
  rewrite select_visible. unfold index, g_user_id.
  by destruct (g_user rq).
Qed.

(** C1. For every viewer and every stored set of posts (under the
    schema's keys: ids are unique and every post's author is a user),
    the listing [index] renders exactly the posts visible to the
    viewer -- the public ones (visibility NULL) for an absent viewer;
    for a viewer with id v the ones that are public, or whose
    visibility equals v, or whose author is v -- each joined with its
    author's username, newest first, and leaves the state as it was. *)
Theorem index_lists_visible_posts_newest_first rq s :
  primary_keys (st_db s) → authors_exist (st_db s) →
  ∃ posts,
    index vis_eq rq s = (Return (render_template (index_html posts)), s)
    ∧ row_post <$> posts
      ≡ₚ filter (visible_to vis_eq (g_user rq)) (tbl_post (st_db s))
    ∧ StronglySorted (newer_first by_created) posts
    ∧ ∀ r, r ∈ posts →
        ∃ u, u ∈ tbl_user (st_db s) ∧ u_id u = p_author_id (row_post r)
             ∧ row_username r = u_username u.
Proof.
  intros [Hu _ _] Ha. eexists. split; [apply run_index|].
  split_and!.
  - rewrite order_by_desc_perm.
    rewrite (where_post_join _ (visible_to vis_eq (g_user rq))
               (λ r, visible_to vis_eq (g_user rq) (row_post r))) by done.
    rewrite row_post_join; [done|done|].
    apply Forall_forall. intros p Hp.
    apply list_elem_of_filter in Hp as [_ Hp].
    by apply (proj1 (Forall_forall _ _) Ha).
  - apply order_by_desc_sorted.
  - intros r Hr. apply elem_of_order_by_desc in Hr.
    apply list_elem_of_filter in Hr as [_ Hr].
    rewrite post_join_user_eq in Hr.
    apply list_elem_of_bind in Hr as (p & Hr & _).
    apply author_rows_author in Hr as (u & Hin & E & ->). eauto.
Qed.
End Visibility.

Lemma index_lists_visible_posts_newest_first_witness :
  ∃ posts,
    index sample_vis_eq (Request (Some bob) GET ∅ 100) sample_state
    = (Return (render_template (index_html posts)), sample_state)
    ∧ row_post <$> posts
      ≡ₚ filter (visible_to sample_vis_eq (Some bob)) (tbl_post sample_db)
    ∧ StronglySorted (newer_first by_created) posts
    ∧ ∀ r, r ∈ posts →
        ∃ u, u ∈ tbl_user sample_db ∧ u_id u = p_author_id (row_post r)
             ∧ row_username r = u_username u.
Proof.
  apply (index_lists_visible_posts_newest_first sample_vis_eq
           (Request (Some bob) GET ∅ 100) sample_state).
  - exact sample_db_primary_keys.
  - exact sample_db_authors_exist.
Defined.

(** ** Fetching one post *)

Section GetPost.
Variable rq : request.
Variable s : state.

Lemma run_get_post_missing id check :
  id ∉ p_id <$> tbl_post (st_db s) →
  get_post rq id check s = (Raise (HTTPException 404), s).
Proof.
  intros Hid. unfold get_post. rewrite run_bind. simpl.
  rewrite (where_post_join _ (λ p, p_id p = id)
             (λ r, p_id (row_post r) = id)) by done.
  by rewrite filter_key_absent.
Qed.

Lemma run_get_post_found P check :
  primary_keys (st_db s) → authors_exist (st_db s) → P ∈ tbl_post (st_db s) →
  ∃ u, u ∈ tbl_user (st_db s) ∧ u_id u = p_author_id P ∧
    get_post rq (p_id P) check s
    = (if check then
         uid ← g_user_id rq;
         if bool_decide (p_author_id P ≠ uid) then abort 403
         else mret (PostRow P (u_username u))
       else mret (PostRow P (u_username u))) s.
Proof.
  intros Hpk Hfk HP.
  destruct (fetch_by_id _ P Hpk Hfk HP) as (u & Hu & E & Hrow).
  exists u. split_and!; [done|done|].
  unfold get_post. rewrite run_bind. simpl. by rewrite Hrow.
Qed.

Lemma run_get_post_other P v :
  primary_keys (st_db s) → authors_exist (st_db s) → P ∈ tbl_post (st_db s) →
  g_user rq = Some v → u_id v ≠ p_author_id P →
  get_post rq (p_id P) true s = (Raise (HTTPException 403), s).
Proof.
  intros Hpk Hfk HP Hv Hne.
  destruct (run_get_post_found P true Hpk Hfk HP) as (u & _ & _ & ->).
  rewrite run_bind, (run_g_user_id _ v) by done.
  by rewrite bool_decide_eq_true_2 by congruence.
Qed.

Lemma run_get_post_author P v :
  primary_keys (st_db s) → authors_exist (st_db s) → P ∈ tbl_post (st_db s) →
  g_user rq = Some v → u_id v = p_author_id P →
  ∃ r, row_post r = P ∧ get_post rq (p_id P) true s = (Return r, s).
Proof.
  intros Hpk Hfk HP Hv He.
  destruct (run_get_post_found P true Hpk Hfk HP) as (u & _ & _ & ->).
  eexists. split; [|rewrite run_bind, (run_g_user_id _ v) by done;
                     by rewrite bool_decide_eq_false_2 by (intros ?; congruence)].
  done.
Qed.
End GetPost.

(** C4. For every stored post P and every viewer whose id is not
    P.author_id, [update] and [delete] on P do not succeed: a logged-in
    viewer gets [abort(403)], an absent viewer the login redirect --
    AuthorizationError both -- and the state, so the post, is unchanged. *)
Theorem update_delete_only_by_author cascade rq s P :
  primary_keys (st_db s) → authors_exist (st_db s) → P ∈ tbl_post (st_db s) →
  (∀ v, g_user rq = Some v → u_id v ≠ p_author_id P) →
  update rq (p_id P) s = (denied (g_user rq), s)
  ∧ delete cascade rq (p_id P) s = (denied (g_user rq), s)
  ∧ error_of (denied (g_user rq)) = Some AuthorizationError.
Proof.
  intros Hpk Hfk HP Hv. unfold update, delete.
  destruct (g_user rq) as [v|] eqn:Hg.
  - rewrite !(run_login_required _ _ v), !run_bind by done.
    by rewrite (run_get_post_other rq s P v) by auto.
  - by rewrite !run_login_required_anonymous by done.
Qed.

Lemma update_delete_only_by_author_witness :
  update (Request (Some bob) POST ∅ 100) 1 sample_state
  = (Raise (HTTPException 403), sample_state)
  ∧ delete true (Request (Some bob) POST ∅ 100) 1 sample_state
    = (Raise (HTTPException 403), sample_state)
  ∧ error_of (Raise (HTTPException 403)) = Some AuthorizationError.
Proof.
  apply (update_delete_only_by_author true (Request (Some bob) POST ∅ 100)
           sample_state (Post 1 "public" "b1" None 10 1)).
  - exact sample_db_primary_keys.
  - exact sample_db_authors_exist.
  - simpl. set_solver.
  - simpl. intros v [= <-]. done.
Defined.

(** ** The single-post view *)

Lemma sql_holds_and a b :
  sql_holds (sql_and a (Some b)) = sql_holds a && b.
Proof. by destruct a as [[]|], b. Qed.

Section PostView.
Variable vis_eq : string → Z → bool.

Lemma visible_row_select viewer id d :
  visible_row vis_eq viewer id d
  = match viewer with
    | Some v =>
        head (order_by_desc by_created
          (filter (λ r, sql_holds
                     (sql_and (where_user vis_eq (u_id v) (row_post r))
                        (Some (bool_decide (p_id (row_post r) = id)))))
                  (post_join_user d)))
    | None =>
        head (order_by_desc by_created
          (filter (λ r, sql_holds
                     (sql_and (where_anonymous (row_post r))
                        (Some (bool_decide (p_id (row_post r) = id)))))
                  (post_join_user d)))
    end.
Proof.
  unfold visible_row.
  destruct viewer as [v|]; do 2 f_equal; apply filter_ext_elem; intros r _;
    rewrite sql_holds_and, andb_True, bool_decide_spec.
  - by rewrite where_user_visible.
  - by rewrite where_anonymous_visible.
Qed.

(** [post] after its SELECT. *)
Lemma run_post rq id s :
  post vis_eq rq id s
  = (let fetched := visible_row vis_eq (g_user rq) id (st_db s) in
     if bool_decide (req_method rq = POST) then
       title ← form_get rq "title";
       body ← form_get rq "body";
       match check_title title with
       | Some error => flash error
       | None =>
           pid ← row_id fetched;
           execute_commit (insert_comment title body pid (req_now rq))
       end;;
       pid ← row_id fetched;
       mret (redirect (blog_post pid))
     else
       pid ← row_id fetched;
       match fetched with
       | Some p =>
           mret (render_template (post_html p (select_comments (st_db s) pid)))
       | None => raise TypeError
       end) s.
Proof.
  rewrite visible_row_select. unfold post, g_user_id.
  by destruct (g_user rq).
Qed.

Lemma visible_row_Some viewer id d r :
  visible_row vis_eq viewer id d = Some r →
  visible_to vis_eq viewer (row_post r) ∧ p_id (row_post r) = id
  ∧ r ∈ post_join_user d.
Proof.
  intros Hrow. apply head_order_by_desc_elem in Hrow.
  apply list_elem_of_filter in Hrow as [[Hvis Hid] Hr]. done.
Qed.

Lemma visible_rows_of_post viewer d P :
  NoDup (p_id <$> tbl_post d) → P ∈ tbl_post d →
  filter (λ r, visible_to vis_eq viewer (row_post r)
               ∧ p_id (row_post r) = p_id P) (post_join_user d)
  = filter (visible_to vis_eq viewer) [P] ≫= author_rows d.
Proof.
  intros Hpk HP.
  rewrite (where_post_join _
             (λ p, visible_to vis_eq viewer p ∧ p_id p = p_id P)
             (λ r, visible_to vis_eq viewer (row_post r)
                   ∧ p_id (row_post r) = p_id P)) by done.
  by rewrite <- list_filter_filter, filter_key_unique.
Qed.

Lemma visible_row_found viewer d P :
  primary_keys d → authors_exist d → P ∈ tbl_post d →
  visible_to vis_eq viewer P →
  ∃ u, u ∈ tbl_user d ∧ u_id u = p_author_id P
       ∧ visible_row vis_eq viewer (p_id P) d = Some (PostRow P (u_username u)).
Proof.
  intros [Hu Hp _] Hfk HP Hvis.
  pose proof (proj1 (Forall_forall _ _) Hfk P HP) as HaP.
  destruct (author_rows_singleton d P Hu HaP) as (u & Hin & E & Hrows).
  exists u. split_and!; [done|done|].
  unfold visible_row. rewrite visible_rows_of_post by done.
  by rewrite filter_cons_True, filter_nil, bind_singleton, Hrows.
Qed.

Lemma visible_row_hidden viewer d P :
  primary_keys d → P ∈ tbl_post d → ¬ visible_to vis_eq viewer P →
  visible_row vis_eq viewer (p_id P) d = None.
Proof.
  intros [_ Hp _] HP Hvis.
  unfold visible_row. rewrite visible_rows_of_post by done.
  by rewrite filter_cons_False.
Qed.

Lemma visible_row_missing viewer d id :
  id ∉ p_id <$> tbl_post d → visible_row vis_eq viewer id d = None.
Proof.
  intros Hid. destruct (visible_row _ _ _ _) as [r|] eqn:E; [|done].
  apply visible_row_Some in E as (_ & <- & Hr).
  rewrite post_join_user_eq in Hr.
  apply list_elem_of_bind in Hr as (p & Hr & Hp).
  apply author_rows_row_post in Hr. rewrite Hr in Hid.
  exfalso. apply Hid. by apply list_elem_of_fmap_2.
Qed.

(** GET with no visible row: [post['id']] on [None]. *)
Lemma run_post_get_none rq id s :
  req_method rq = GET →
  visible_row vis_eq (g_user rq) id (st_db s) = None →
  post vis_eq rq id s = (Raise TypeError, s).
Proof. intros Hm Hrow. rewrite run_post, Hm. simpl. by rewrite Hrow. Qed.

(** GET with a visible row: the post and its comments, newest first. *)
Lemma run_post_get_some rq id s r :
  req_method rq = GET →
  visible_row vis_eq (g_user rq) id (st_db s) = Some r →
  post vis_eq rq id s
  = (Return (render_template
       (post_html r (select_comments (st_db s) (p_id (row_post r))))), s).
Proof. intros Hm Hrow. rewrite run_post, Hm. simpl. by rewrite Hrow. Qed.

(** The view writes nothing when it fetched no row. *)
Lemma run_post_none_db rq id s :
  visible_row vis_eq (g_user rq) id (st_db s) = None →
  st_db (post vis_eq rq id s).2 = st_db s.
Proof.
  intros Hrow. rewrite run_post. simpl. rewrite Hrow.
  case_bool_decide; [|done].
  rewrite run_bind. unfold form_get at 1.
  destruct (req_form rq !! "title") as [title|]; [|done].
  rewrite run_ret, run_bind. unfold form_get at 1.
  destruct (req_form rq !! "body") as [body|]; [|done].
  rewrite run_ret, run_bind. by destruct (check_title title).
Qed.

(** No page is rendered when no row was fetched. *)
Lemma run_post_none_no_page rq id s pg s' :
  visible_row vis_eq (g_user rq) id (st_db s) = None →
  post vis_eq rq id s ≠ (Return (render_template pg), s').
Proof.
  intros Hrow. rewrite run_post. simpl. rewrite Hrow.
  case_bool_decide; [|done].
  rewrite run_bind. unfold form_get at 1.
  destruct (req_form rq !! "title") as [title|]; [|done].
  rewrite run_ret, run_bind. unfold form_get at 1.
  destruct (req_form rq !! "body") as [body|]; [|done].
  rewrite run_ret, run_bind. by destruct (check_title title).
Qed.

(** POST of a comment with a title, on a fetched row. *)
Lemma run_post_comment rq id s r title body :
  req_method rq = POST →
  req_form rq !! "title" = Some title → title ≠ "" →
  req_form rq !! "body" = Some body →
  visible_row vis_eq (g_user rq) id (st_db s) = Some r →
  post vis_eq rq id s
  = (Return (redirect (blog_post (p_id (row_post r)))),
     State (insert_comment title body (p_id (row_post r)) (req_now rq)
              (st_db s)) (st_flashes s)).
Proof.
  intros Hm Ht Hne Hb Hrow. rewrite run_post, Hm. simpl. rewrite Hrow.
  rewrite run_bind, (run_form_get _ _ title) by done.
  rewrite run_bind, (run_form_get _ _ body) by done.
  unfold check_title. by rewrite bool_decide_eq_false_2 by done.
Qed.
End PostView.

(** ** Restricted posts *)

(** A post restricted to [u] is not visible to a viewer who is neither
    [u] nor its author. *)
Lemma restricted_not_visible vis_eq viewer P t u :
  vis_eq_functional vis_eq →
  p_visibility P = Some t → vis_eq t (u_id u) = true →
  (∀ v, viewer = Some v → u_id v ≠ u_id u ∧ u_id v ≠ p_author_id P) →
  ¬ visible_to vis_eq viewer P.
Proof.
  intros Hfun Hvis Hu Hv. unfold visible_to, visibility_eq. rewrite Hvis.
  destruct viewer as [v|]; [|done].
  destruct (Hv v eq_refl) as [Hne1 Hne2].
  intros [?|[E|?]]; [done| |done].
  simpl in E. injection E as E. by apply Hne1, (Hfun t).
Qed.

(** C2, as the code has it. For every stored post P whose visibility
    equals a user u's id and every viewer who is neither u nor P's
    author: the listing does not contain P and the single-post view
    renders no page at P's id; and when that viewer is logged in,
    [get_post] with the authorship requirement (the fetch [update] and
    [delete] make) raises [abort(403)], AuthorizationError. *)
Theorem restricted_post_hidden_and_forbidden vis_eq rq s P t u :
  vis_eq_functional vis_eq →
  primary_keys (st_db s) → authors_exist (st_db s) → P ∈ tbl_post (st_db s) →
  p_visibility P = Some t → vis_eq t (u_id u) = true →
  (∀ v, g_user rq = Some v → u_id v ≠ u_id u ∧ u_id v ≠ p_author_id P) →
  (∃ posts,
     index vis_eq rq s = (Return (render_template (index_html posts)), s)
     ∧ P ∉ row_post <$> posts)
  ∧ (∀ pg s', post vis_eq rq (p_id P) s ≠ (Return (render_template pg), s'))
  ∧ (∀ v, g_user rq = Some v →
       get_post rq (p_id P) true s = (Raise (HTTPException 403), s)
       ∧ error_of (Raise (HTTPException 403)) = Some AuthorizationError).
Proof.
  intros Hfun Hpk Hfk HP Hvis Hu Hv.
  pose proof (restricted_not_visible vis_eq _ P t u Hfun Hvis Hu Hv) as Hhid.
  split_and!.
  - eexists. split; [apply run_index|].
    intros Hin. apply list_elem_of_fmap in Hin as (r & -> & Hr).
    apply elem_of_order_by_desc, list_elem_of_filter in Hr as [Hr _]. done.
  - intros pg s'. apply run_post_none_no_page.
    by apply visible_row_hidden.
  - intros v Hg. split; [|done].
    apply (run_get_post_other rq s P v); try done. by apply Hv.
Qed.

Lemma restricted_post_hidden_and_forbidden_witness :
  (∃ posts,
     index sample_vis_eq (Request (Some carol) GET ∅ 100) sample_state
     = (Return (render_template (index_html posts)), sample_state)
     ∧ Post 3 "for bob" "b3" (Some "2") 30 1 ∉ row_post <$> posts)
  ∧ (∀ pg s', post sample_vis_eq (Request (Some carol) GET ∅ 100) 3 sample_state
              ≠ (Return (render_template pg), s'))
  ∧ (∀ v, Some carol = Some v →
       get_post (Request (Some carol) GET ∅ 100) 3 true sample_state
       = (Raise (HTTPException 403), sample_state)
       ∧ error_of (Raise (HTTPException 403)) = Some AuthorizationError).
Proof.
  apply (restricted_post_hidden_and_forbidden sample_vis_eq
           (Request (Some carol) GET ∅ 100) sample_state
           (Post 3 "for bob" "b3" (Some "2") 30 1) "2" bob).
  - exact sample_vis_eq_functional.
  - exact sample_db_primary_keys.
  - exact sample_db_authors_exist.
  - simpl. set_solver.
  - reflexivity.
  - reflexivity.
  - simpl. intros v [= <-]. done.
Defined.

(** C2 as stated fails: carol is neither bob nor the author of post 3,
    which is restricted to bob, and fetching it for mutation gives her
    [abort(403)], not NotFoundError. *)
Lemma restricted_post_fetch_for_mutation_is_403 :
  p_visibility (Post 3 "for bob" "b3" (Some "2") 30 1) = Some "2"
  ∧ sample_vis_eq "2" (u_id bob) = true
  ∧ u_id carol ≠ u_id bob ∧ u_id carol ≠ 1
  ∧ get_post (Request (Some carol) POST ∅ 100) 3 true sample_state
    = (Raise (HTTPException 403), sample_state)
  ∧ get_post (Request (Some carol) POST ∅ 100) 3 true sample_state
    ≠ (Raise (HTTPException 404), sample_state)
  ∧ error_of (update (Request (Some carol) POST ∅ 100) 3 sample_state).1
    ≠ Some NotFoundError.
Proof. by vm_compute. Qed.

(** ** The single-post view on a post that is not there *)

(** C6 fails on the code. GET /post/999 on the sample database, where
    no post has id 999, does not answer 404: the view subscripts the
    [None] that [fetchone()] returned and a [TypeError] leaves it. The
    same holds for post 3, which exists but is restricted to bob, seen
    by an absent viewer. [get_post], on the same missing id, does
    [abort(404)]. *)
Theorem post_view_without_row_raises_TypeError :
  post sample_vis_eq (Request None GET ∅ 100) 999 sample_state
  = (Raise TypeError, sample_state)
  ∧ post sample_vis_eq (Request None GET ∅ 100) 3 sample_state
    = (Raise TypeError, sample_state)
  ∧ error_of (Raise TypeError) ≠ Some NotFoundError
  ∧ get_post (Request None GET ∅ 100) 999 false sample_state
    = (Raise (HTTPException 404), sample_state).
Proof. by vm_compute. Qed.

(** The comments of a post, as the view lists them: those of the post,
    newest first. *)
Lemma select_comments_spec d id :
  select_comments d id ≡ₚ filter (λ c, c_post_id c = id) (tbl_comment d)
  ∧ StronglySorted (newer_first c_created) (select_comments d id).
Proof.
  split; [apply order_by_desc_perm|apply order_by_desc_sorted].
Qed.

(** ** Commenting *)

(** C7, as the code has it. For every viewer, absent or not, and every
    stored post P, a POST to the single-post view with a non-empty
    title and a body: when P is visible to the viewer, appends one
    comment row with P's id, that title and that body and redirects to
    P's page; when P is not visible to the viewer, the database is left
    as it was. *)
Theorem comment_accepted_on_visible_post vis_eq rq s P title body :
  primary_keys (st_db s) → authors_exist (st_db s) → P ∈ tbl_post (st_db s) →
  req_method rq = POST →
  req_form rq !! "title" = Some title → title ≠ "" →
  req_form rq !! "body" = Some body →
  (visible_to vis_eq (g_user rq) P →
     ∃ c, post vis_eq rq (p_id P) s
          = (Return (redirect (blog_post (p_id P))),
             State (Database (tbl_user (st_db s)) (tbl_post (st_db s))
                      (tbl_comment (st_db s) ++ [c])) (st_flashes s))
          ∧ c_post_id c = p_id P ∧ c_title c = title ∧ c_body c = body)
  ∧ (¬ visible_to vis_eq (g_user rq) P →
     st_db (post vis_eq rq (p_id P) s).2 = st_db s).
Proof.
  intros Hpk Hfk HP Hm Ht Hne Hb. split.
  - intros Hvis.
    destruct (visible_row_found vis_eq _ _ P Hpk Hfk HP Hvis)
      as (u & _ & _ & Hrow).
    rewrite (run_post_comment vis_eq rq _ s _ title body Hm Ht Hne Hb Hrow).
    by eexists.
  - intros Hvis. apply run_post_none_db. by apply visible_row_hidden.
Qed.

Lemma comment_accepted_on_visible_post_witness :
  (visible_to sample_vis_eq None (Post 1 "public" "b1" None 10 1) →
     ∃ c, post sample_vis_eq
            (Request None POST {[ "title" := "hi"; "body" := "there" ]} 100)
            1 sample_state
          = (Return (redirect (blog_post 1)),
             State (Database (tbl_user sample_db) (tbl_post sample_db)
                      (tbl_comment sample_db ++ [c])) [])
          ∧ c_post_id c = 1 ∧ c_title c = "hi" ∧ c_body c = "there")
  ∧ (¬ visible_to sample_vis_eq None (Post 1 "public" "b1" None 10 1) →
     st_db (post sample_vis_eq
              (Request None POST {[ "title" := "hi"; "body" := "there" ]} 100)
              1 sample_state).2 = sample_db).
Proof.
  apply (comment_accepted_on_visible_post sample_vis_eq
           (Request None POST {[ "title" := "hi"; "body" := "there" ]} 100)
           sample_state (Post 1 "public" "b1" None 10 1) "hi" "there").
  - exact sample_db_primary_keys.
  - exact sample_db_authors_exist.
  - simpl. set_solver.
  - reflexivity.
  - by vm_compute.
  - done.
  - by vm_compute.
Defined.

(** C7 as stated fails: post 3 exists, and an absent viewer's comment
    on it, with a title, is not accepted -- post 3 is restricted to bob,
    the SELECT of the view fetches no row, and no comment is inserted. *)
Lemma comment_on_restricted_post_rejected :
  Post 3 "for bob" "b3" (Some "2") 30 1 ∈ tbl_post sample_db
  ∧ post sample_vis_eq
      (Request None POST {[ "title" := "hi"; "body" := "there" ]} 100)
      3 sample_state
    = (Raise TypeError, sample_state).
Proof. split; [set_solver|by vm_compute]. Qed.

(** ** The comment-post-author join *)

Section JoinComment.
Variable d : database.

Lemma comment_join_eq :
  comment_join_post_user d = tbl_comment d ≫= comment_rows d.
Proof. done. Qed.

Lemma elem_of_comment_rows c r :
  r ∈ comment_rows d c ↔
  ∃ p u, p ∈ tbl_post d ∧ p_id p = c_post_id c
         ∧ u ∈ tbl_user d ∧ u_id u = p_author_id p
         ∧ r = CommentRow c p (u_username u).
Proof.
  unfold comment_rows. rewrite list_elem_of_bind. split.
  - intros (p & Hr & Hp). apply list_elem_of_bind in Hr as (u & Hr & Hu).
    apply list_elem_of_singleton in Hr as ->.
    apply list_elem_of_filter in Hp as [Ep Hp].
    apply list_elem_of_filter in Hu as [Eu Hu].
    exists p, u. by split_and!.
  - intros (p & u & Hp & Ep & Hu & Eu & ->).
    exists p. split.
    + apply list_elem_of_bind. exists u. split; [left|].
      by apply list_elem_of_filter.
    + by apply list_elem_of_filter.
Qed.

Lemma comment_rows_comment c r : r ∈ comment_rows d c → cr_comment r = c.
Proof.
  rewrite elem_of_comment_rows. by intros (p & u & _ & _ & _ & _ & ->).
Qed.

(** With the keys in place, a comment whose post is stored has one
    joined row, and it carries that post. *)
Lemma comment_rows_found C P :
  primary_keys d → authors_exist d → P ∈ tbl_post d →
  c_post_id C = p_id P →
  ∃ u, u ∈ tbl_user d ∧ u_id u = p_author_id P
       ∧ comment_rows d C = [CommentRow C P (u_username u)].
Proof.
  intros [Hu Hp _] Hfk HP E.
  pose proof (proj1 (Forall_forall _ _) Hfk P HP) as HaP.
  apply list_elem_of_fmap in HaP as (u & Eu & Hin).
  exists u. split_and!; [done|done|].
  unfold comment_rows.
  rewrite (filter_ext_elem _ (λ p, p_id p = p_id P)).
  2:{ intros p _. rewrite E. split; congruence. }
  rewrite filter_key_unique, bind_singleton by done.
  rewrite (filter_ext_elem _ (λ y, u_id y = u_id u)).
  2:{ intros y _. rewrite Eu. split; congruence. }
  by rewrite filter_key_unique.
Qed.

Lemma fetch_comment_by_id id :
  filter (λ r, c_id (cr_comment r) = id) (comment_join_post_user d)
  = filter (λ c, c_id c = id) (tbl_comment d) ≫= comment_rows d.
Proof.
  rewrite comment_join_eq. apply filter_bind_outer.
  intros c r _ Hr. by rewrite (comment_rows_comment c r Hr).
Qed.

(** Without the comment, its post or the post's author the join has
    no row for the id. *)
Lemma fetch_comment_unresolved id :
  ¬ comment_resolves d id →
  filter (λ r, c_id (cr_comment r) = id) (comment_join_post_user d) = [].
Proof.
  intros Hno. rewrite fetch_comment_by_id.
  destruct (filter _ _ ≫= _) as [|r l] eqn:E; [done|].
  exfalso. apply Hno.
  assert (r ∈ filter (λ c, c_id c = id) (tbl_comment d) ≫= comment_rows d)
    as Hr by (rewrite E; left).
  apply list_elem_of_bind in Hr as (c & Hr & Hc).
  apply list_elem_of_filter in Hc as [Ec Hc].
  apply elem_of_comment_rows in Hr as (p & u & Hp & Ep & Hu & Eu & _).
  by exists c, p, u.
Qed.

Lemma fetch_comment_found C P :
  primary_keys d → authors_exist d →
  C ∈ tbl_comment d → P ∈ tbl_post d → c_post_id C = p_id P →
  ∃ u, u ∈ tbl_user d ∧ u_id u = p_author_id P
       ∧ filter (λ r, c_id (cr_comment r) = c_id C) (comment_join_post_user d)
         = [CommentRow C P (u_username u)].
Proof.
  intros Hpk Hfk HC HP E.
  destruct (comment_rows_found C P Hpk Hfk HP E) as (u & Hu & Eu & Hrows).
  exists u. split_and!; [done|done|].
  rewrite fetch_comment_by_id, filter_key_unique; [|apply Hpk|done].
  by rewrite bind_singleton.
Qed.
End JoinComment.

(** ** Fetching and deleting a comment *)

Lemma run_get_comment_unresolved rq s id check :
  ¬ comment_resolves (st_db s) id →
  get_comment rq id check s = (Raise (HTTPException 404), s).
Proof.
  intros Hno. unfold get_comment. rewrite run_bind. simpl.
  by rewrite fetch_comment_unresolved.
Qed.

Lemma run_get_comment_found rq s C P :
  primary_keys (st_db s) → authors_exist (st_db s) →
  C ∈ tbl_comment (st_db s) → P ∈ tbl_post (st_db s) →
  c_post_id C = p_id P →
  ∃ u, get_comment rq (c_id C) true s
       = (uid ← g_user_id rq;
          if bool_decide (p_author_id P ≠ uid) then abort 403
          else mret (CommentRow C P (u_username u))) s.
Proof.
  intros Hpk Hfk HC HP E.
  destruct (fetch_comment_found _ C P Hpk Hfk HC HP E) as (u & _ & _ & Hrow).
  exists u. unfold get_comment. rewrite run_bind. simpl. by rewrite Hrow.
Qed.

Lemma elem_of_delete_comment id d c :
  c ∈ tbl_comment (delete_comment id d) ↔ c ∈ tbl_comment d ∧ c_id c ≠ id.
Proof. simpl. rewrite list_elem_of_filter. tauto. Qed.

(** C3. For every stored comment C with parent post P and every viewer:
    when the viewer is logged in with the id of P's author,
    [deleteComment] removes C (and only the rows with C's id) and
    redirects to P's page; any other viewer gets AuthorizationError --
    [abort(403)] when logged in, the login redirect when absent -- and
    nothing is deleted. Who wrote the comment plays no part: a comment
    row has no author column. *)
Theorem deleteComment_only_by_post_author rq s C P :
  primary_keys (st_db s) → authors_exist (st_db s) →
  C ∈ tbl_comment (st_db s) → P ∈ tbl_post (st_db s) →
  c_post_id C = p_id P →
  ((∃ v, g_user rq = Some v ∧ u_id v = p_author_id P) →
     deleteComment rq (c_id C) s
     = (Return (redirect (blog_post (p_id P))),
        State (delete_comment (c_id C) (st_db s)) (st_flashes s))
     ∧ ∀ c, c ∈ tbl_comment (delete_comment (c_id C) (st_db s))
            ↔ c ∈ tbl_comment (st_db s) ∧ c_id c ≠ c_id C)
  ∧ ((∀ v, g_user rq = Some v → u_id v ≠ p_author_id P) →
     deleteComment rq (c_id C) s = (denied (g_user rq), s)
     ∧ error_of (denied (g_user rq)) = Some AuthorizationError).
Proof.
  intros Hpk Hfk HC HP E.
  destruct (run_get_comment_found rq s C P Hpk Hfk HC HP E) as (u & Hget).
  unfold deleteComment. split.
  - intros (v & Hg & Hv). split; [|intros c; apply elem_of_delete_comment].
    rewrite (run_login_required _ _ v), run_bind, Hget by done.
    rewrite run_bind, (run_g_user_id _ v) by done.
    rewrite bool_decide_eq_false_2 by (intros ?; congruence).
    simpl. by rewrite E.
  - intros Hv. destruct (g_user rq) as [v|] eqn:Hg.
    + rewrite (run_login_required _ _ v), run_bind, Hget by done.
      rewrite run_bind, (run_g_user_id _ v) by done.
      rewrite bool_decide_eq_true_2; [done|].
      intros ?. by apply (Hv v).
    + by rewrite run_login_required_anonymous.
Qed.

Lemma deleteComment_only_by_post_author_witness :
  ((∃ v, Some alice = Some v ∧ u_id v = 1) →
     deleteComment (Request (Some alice) POST ∅ 100) 2 sample_state
     = (Return (redirect (blog_post 2)),
        State (delete_comment 2 sample_db) [])
     ∧ ∀ c, c ∈ tbl_comment (delete_comment 2 sample_db)
            ↔ c ∈ tbl_comment sample_db ∧ c_id c ≠ 2)
  ∧ ((∀ v, Some alice = Some v → u_id v ≠ 1) →
     deleteComment (Request (Some alice) POST ∅ 100) 2 sample_state
     = (denied (Some alice), sample_state)
     ∧ error_of (denied (Some alice)) = Some AuthorizationError).
Proof.
  apply (deleteComment_only_by_post_author (Request (Some alice) POST ∅ 100)
           sample_state (Comment 2 "c2" "y" 25 2)
           (Post 2 "private" "b2" (Some "1") 20 1)).
  - exact sample_db_primary_keys.
  - exact sample_db_authors_exist.
  - simpl. set_solver.
  - simpl. set_solver.
  - reflexivity.
Defined.

(** C10. For every comment id in the store's integer range whose
    comment, parent post or parent post's author is not stored,
    [get_comment] raises [abort(404)], NotFoundError, with or without
    the authorship check, and so does [deleteComment] for a logged-in
    viewer; the state is unchanged, so a comment row with that id stays
    where it is. *)
Theorem get_comment_404_without_post_or_author rq s id check :
  sqlite_integer id →
  ¬ comment_resolves (st_db s) id →
  get_comment rq id check s = (Raise (HTTPException 404), s)
  ∧ (is_Some (g_user rq) →
     deleteComment rq id s = (Raise (HTTPException 404), s))
  ∧ error_of (Raise (HTTPException 404)) = Some NotFoundError.
Proof.
  intros _ Hno. split_and!; [by apply run_get_comment_unresolved| |done].
  intros [v Hg]. unfold deleteComment.
  rewrite (run_login_required _ _ v), run_bind by done.
  by rewrite run_get_comment_unresolved.
Qed.

Lemma orphan_comment_3_unresolved : ¬ comment_resolves orphan_db 3.
Proof.
  intros (c & p & u & Hc & Ec & Hp & Ep & _).
  stored_rows Hc; try done; stored_rows Hp; done.
Qed.

Lemma orphan_comment_4_unresolved : ¬ comment_resolves orphan_db 4.
Proof.
  intros (c & p & u & Hc & Ec & Hp & Ep & Hu & Eu).
  stored_rows Hc; try done; stored_rows Hp; try done; stored_rows Hu; done.
Qed.

Lemma get_comment_404_without_post_or_author_witness :
  get_comment (Request (Some alice) POST ∅ 100) 3 true (State orphan_db [])
  = (Raise (HTTPException 404), State orphan_db [])
  ∧ (is_Some (Some alice) →
     deleteComment (Request (Some alice) POST ∅ 100) 3 (State orphan_db [])
     = (Raise (HTTPException 404), State orphan_db []))
  ∧ error_of (Raise (HTTPException 404)) = Some NotFoundError.
Proof.
  apply (get_comment_404_without_post_or_author
           (Request (Some alice) POST ∅ 100) (State orphan_db []) 3 true).
  - unfold sqlite_integer. lia.
  - exact orphan_comment_3_unresolved.
Defined.

(** The same for comment 4, whose post is stored but whose post's
    author is not. *)
Example deleteComment_author_gone :
  deleteComment (Request (Some alice) POST ∅ 100) 4 (State orphan_db [])
  = (Raise (HTTPException 404), State orphan_db []).
Proof. by vm_compute. Qed.

(** ** Creating and updating posts *)

Section Create.
Variable clean_html : string → option string.

Lemma run_clean raw body s :
  clean_html raw = Some body → clean clean_html raw s = (Return body, s).
Proof. unfold clean. by intros ->. Qed.

(** A POST to [create] by a logged-in viewer, all three fields
    submitted and the body accepted by the cleaner. *)
Lemma run_create_post rq s v title raw body vis :
  g_user rq = Some v → req_method rq = POST →
  req_form rq !! "title" = Some title →
  req_form rq !! "body" = Some raw → clean_html raw = Some body →
  req_form rq !! "visibility" = Some vis →
  create clean_html rq s
  = if bool_decide (title = "") then
      (Return (render_template (create_html (select_users (st_db s)))),
       State (st_db s) (st_flashes s ++ [title_required]))
    else
      (Return (redirect blog_index),
       State (insert_post title body (maybeNone vis) (u_id v) (req_now rq)
                (st_db s)) (st_flashes s)).
Proof.
  intros Hg Hm Ht Hb Hc Hv. unfold create.
  rewrite (run_login_required _ _ v), run_bind, Hm by done. simpl.
  rewrite run_bind, (run_form_get _ _ title) by done.
  rewrite run_bind, (run_form_get _ _ raw) by done.
  rewrite run_bind, (run_clean _ body) by done.
  rewrite run_bind, (run_form_get _ _ vis) by done.
  unfold check_title. case_bool_decide; [done|].
  by rewrite run_bind, (run_g_user_id _ v).
Qed.

(** [create] answers with the redirect to the index only after it
    inserted the post. *)
Lemma create_success_inv rq s s' :
  create clean_html rq s = (Return (redirect blog_index), s') →
  ∃ v title raw body vis,
    g_user rq = Some v
    ∧ req_form rq !! "title" = Some title ∧ title ≠ ""
    ∧ req_form rq !! "body" = Some raw ∧ clean_html raw = Some body
    ∧ req_form rq !! "visibility" = Some vis
    ∧ s' = State (insert_post title body (maybeNone vis) (u_id v)
                    (req_now rq) (st_db s)) (st_flashes s).
Proof.
  unfold create, login_required.
  destruct (g_user rq) as [v|] eqn:Hg; [|done].
  rewrite run_bind. case_bool_decide as Hm; [|done].
  rewrite run_bind. unfold form_get at 1.
  destruct (req_form rq !! "title") as [title|] eqn:Ht; [|done].
  rewrite run_ret, run_bind. unfold form_get at 1.
  destruct (req_form rq !! "body") as [raw|] eqn:Hb; [|done].
  rewrite run_ret, run_bind. unfold clean.
  destruct (clean_html raw) as [body|] eqn:Hc; [|done].
  rewrite run_ret, run_bind. unfold form_get.
  destruct (req_form rq !! "visibility") as [vis|] eqn:Hv; [|done].
  rewrite run_ret. unfold check_title. case_bool_decide as Hne; [done|].
  rewrite run_bind, (run_g_user_id _ v) by done.
  intros [= <-]. by exists v, title, raw, body, vis.
Qed.

(** [create] on a body the cleaner accepts. For every logged-in viewer
    who POSTs a title, a body the cleaner accepts and a visibility to
    [create]: with the empty
    title the outcome is a ValidationError -- the message is flashed,
    the form rendered again -- and the post table is as long as
    before (the database is unchanged); with a non-empty title exactly
    one row is appended to the post table, its author the viewer's id,
    its visibility NULL when the input is the text "NULL" and the
    input itself otherwise. *)
Theorem create_validates_title_and_stores_visibility
    rq s v title raw body vis :
  g_user rq = Some v → req_method rq = POST →
  req_form rq !! "title" = Some title →
  req_form rq !! "body" = Some raw → clean_html raw = Some body →
  req_form rq !! "visibility" = Some vis →
  (title = "" →
     validation_error s (create clean_html rq s)
     ∧ st_db (create clean_html rq s).2 = st_db s
     ∧ length (tbl_post (st_db (create clean_html rq s).2))
       = length (tbl_post (st_db s)))
  ∧ (title ≠ "" →
     ∃ row,
       create clean_html rq s
       = (Return (redirect blog_index),
          State (Database (tbl_user (st_db s)) (tbl_post (st_db s) ++ [row])
                   (tbl_comment (st_db s))) (st_flashes s))
       ∧ p_title row = title
       ∧ p_author_id row = u_id v
       ∧ (vis = "NULL" → p_visibility row = None)
       ∧ (vis ≠ "NULL" → p_visibility row = Some vis)).
Proof.
  intros Hg Hm Ht Hb Hc Hv.
  rewrite (run_create_post rq s v title raw body vis) by done.
  split; intros Htitle.
  - rewrite bool_decide_eq_true_2 by done.
    split_and!; [by eexists|done|done].
  - rewrite bool_decide_eq_false_2 by done.
    eexists. split; [done|]. simpl. unfold maybeNone.
    split_and!; [done|done|intros E|intros E].
    + by rewrite bool_decide_eq_true_2.
    + by rewrite bool_decide_eq_false_2.
Qed.
End Create.

Lemma create_validates_title_and_stores_visibility_witness :
  ("hello" = "" →
     validation_error sample_state
       (create sample_clean_html
          (Request (Some bob) POST
             {[ "title" := "hello"; "body" := "text"; "visibility" := "NULL" ]}
             100) sample_state)
     ∧ st_db (create sample_clean_html
          (Request (Some bob) POST
             {[ "title" := "hello"; "body" := "text"; "visibility" := "NULL" ]}
             100) sample_state).2 = sample_db
     ∧ length (tbl_post (st_db (create sample_clean_html
          (Request (Some bob) POST
             {[ "title" := "hello"; "body" := "text"; "visibility" := "NULL" ]}
             100) sample_state).2))
       = length (tbl_post sample_db))
  ∧ ("hello" ≠ "" →
     ∃ row,
       create sample_clean_html
         (Request (Some bob) POST
            {[ "title" := "hello"; "body" := "text"; "visibility" := "NULL" ]}
            100) sample_state
       = (Return (redirect blog_index),
          State (Database (tbl_user sample_db) (tbl_post sample_db ++ [row])
                   (tbl_comment sample_db)) [])
       ∧ p_title row = "hello"
       ∧ p_author_id row = 2
       ∧ ("NULL" = "NULL" → p_visibility row = None)
       ∧ ("NULL" ≠ "NULL" → p_visibility row = Some "NULL")).
Proof.
  apply (create_validates_title_and_stores_visibility sample_clean_html
           (Request (Some bob) POST
              {[ "title" := "hello"; "body" := "text"; "visibility" := "NULL" ]}
              100)
           sample_state bob "hello" "text" "<p>text</p>" "NULL").
  - reflexivity.
  - reflexivity.
  - by vm_compute.
  - by vm_compute.
  - by vm_compute.
  - by vm_compute.
Defined.

(** C5 fails on the code. [create] calls [clean_html] on the body
    before it checks the title, and the cleaner raises on the empty
    document. A logged-in viewer's POST with the empty title and the
    empty body therefore gets no ValidationError: the cleaner's
    exception leaves the view. The same body with a title and the
    visibility "NULL" inserts no row either. [update], which does not
    clean the body, answers the same form with the ValidationError. *)
Theorem create_empty_body_raises_before_validation :
  create sample_clean_html
    (Request (Some bob) POST
       {[ "title" := ""; "body" := ""; "visibility" := "NULL" ]} 100)
    sample_state
  = (Raise CleanerError, sample_state)
  ∧ ¬ validation_error sample_state
        (create sample_clean_html
           (Request (Some bob) POST
              {[ "title" := ""; "body" := ""; "visibility" := "NULL" ]} 100)
           sample_state)
  ∧ create sample_clean_html
      (Request (Some bob) POST
         {[ "title" := "hello"; "body" := ""; "visibility" := "NULL" ]} 100)
      sample_state
    = (Raise CleanerError, sample_state)
  ∧ validation_error sample_state
      (update
         (Request (Some alice) POST
            {[ "title" := ""; "body" := ""; "visibility" := "NULL" ]} 100)
         2 sample_state).
Proof.
  split_and!.
  - by vm_compute.
  - intros [pg Hpg]. vm_compute in Hpg. discriminate Hpg.
  - by vm_compute.
  - eexists. by vm_compute.
Qed.

(** The empty title and another visibility, on the sample data. *)
Example create_empty_title :
  create sample_clean_html
    (Request (Some bob) POST
       {[ "title" := ""; "body" := "text"; "visibility" := "NULL" ]} 100)
    sample_state
  = (Return (render_template (create_html [carol; bob; alice])),
     State sample_db [title_required]).
Proof. by vm_compute. Qed.

Example create_restricted :
  tbl_post (st_db (create sample_clean_html
    (Request (Some bob) POST
       {[ "title" := "mine"; "body" := "text"; "visibility" := "2" ]} 100)
    sample_state).2)
  = tbl_post sample_db ++ [Post 4 "mine" "<p>text</p>" (Some "2") 100 2].
Proof. by vm_compute. Qed.

Lemma get_post_Return_inv rq id check s r s' :
  get_post rq id check s = (Return r, s') →
  s' = s ∧ row_post r ∈ tbl_post (st_db s) ∧ p_id (row_post r) = id.
Proof.
  unfold get_post. rewrite run_bind. simpl.
  destruct (head _) as [r0|] eqn:Hhead; [|done].
  assert (row_post r0 ∈ tbl_post (st_db s) ∧ p_id (row_post r0) = id)
    as [Hin Hid].
  { assert (r0 ∈ filter (λ r, p_id (row_post r) = id)
                   (post_join_user (st_db s))) as Hr0.
    { destruct (filter _ _); simplify_eq/=. left. }
    apply list_elem_of_filter in Hr0 as [Hid Hr0]. split; [|done].
    rewrite post_join_user_eq in Hr0.
    apply list_elem_of_bind in Hr0 as (p & Hr0 & Hp).
    by rewrite (author_rows_row_post _ p r0 Hr0). }
  destruct check.
  - rewrite run_bind. unfold g_user_id.
    destruct (g_user rq) as [v|]; [|done]. rewrite run_ret.
    case_bool_decide; [done|]. by intros [= <- <-].
  - by intros [= <- <-].
Qed.

(** [update] answers with the redirect to the index only after its
    UPDATE. *)
Lemma update_success_inv rq id s s' :
  update rq id s = (Return (redirect blog_index), s') →
  ∃ r title raw vis,
    get_post rq id true s = (Return r, s)
    ∧ req_form rq !! "title" = Some title ∧ title ≠ ""
    ∧ req_form rq !! "body" = Some raw
    ∧ req_form rq !! "visibility" = Some vis
    ∧ s' = State (update_post title raw (maybeNone vis) id (st_db s))
             (st_flashes s).
Proof.
  unfold update, login_required.
  destruct (g_user rq) as [v|] eqn:Hg; [|done].
  rewrite run_bind.
  destruct (get_post rq id true s) as [[r|e] s1] eqn:Hget; [|done].
  destruct (get_post_Return_inv _ _ _ _ _ _ Hget) as (-> & _ & _).
  rewrite run_bind. case_bool_decide as Hm; [|done].
  rewrite run_bind. unfold form_get at 1.
  destruct (req_form rq !! "title") as [title|] eqn:Ht; [|done].
  rewrite run_ret, run_bind. unfold form_get at 1.
  destruct (req_form rq !! "body") as [raw|] eqn:Hb; [|done].
  rewrite run_ret, run_bind. unfold form_get.
  destruct (req_form rq !! "visibility") as [vis|] eqn:Hv; [|done].
  rewrite run_ret. unfold check_title. case_bool_decide as Hne; [done|].
  intros [= <-]. by exists r, title, raw, vis.
Qed.

Lemma elem_of_update_post title body vis id d p :
  p ∈ tbl_post (update_post title body vis id d) →
  p_id p = id → p_body p = body ∧ p_title p = title ∧ p_visibility p = vis.
Proof.
  simpl. intros Hp Hid. apply list_elem_of_fmap in Hp as (q & -> & Hq).
  case_bool_decide as E; [done|]. done.
Qed.

(** C9. For every successful [create], the row appended to the post
    table holds as its body what [clean_html] made of the submitted
    body; for every successful [update], the rows with the updated id
    -- there is one -- hold the submitted body itself. *)
Theorem create_sanitizes_body_update_does_not
    clean_html rq1 s1 s1' rq2 id s2 s2' :
  create clean_html rq1 s1 = (Return (redirect blog_index), s1') →
  update rq2 id s2 = (Return (redirect blog_index), s2') →
  (∃ raw body row,
     req_form rq1 !! "body" = Some raw ∧ clean_html raw = Some body
     ∧ tbl_post (st_db s1') = tbl_post (st_db s1) ++ [row]
     ∧ p_body row = body)
  ∧ (∃ raw,
       req_form rq2 !! "body" = Some raw
       ∧ (∃ p, p ∈ tbl_post (st_db s2') ∧ p_id p = id)
       ∧ ∀ p, p ∈ tbl_post (st_db s2') → p_id p = id → p_body p = raw).
Proof.
  intros Hc Hu. split.
  - apply create_success_inv in Hc
      as (v & title & raw & body & vis & _ & _ & _ & Hb & Hcl & _ & ->).
    exists raw, body. by eexists.
  - apply update_success_inv in Hu
      as (r & title & raw & vis & Hget & _ & _ & Hb & _ & ->).
    apply get_post_Return_inv in Hget as (_ & Hin & Hid).
    exists raw. split_and!; [done| |].
    + exists (Post id title raw (maybeNone vis) (p_created (row_post r))
                (p_author_id (row_post r))).
      split; [|done]. simpl. apply list_elem_of_fmap.
      exists (row_post r). by rewrite bool_decide_eq_true_2, Hid.
    + intros p Hp Hp'. by apply elem_of_update_post in Hp as (? & _).
Qed.

Lemma create_sanitizes_body_update_does_not_witness :
  (∃ raw body row,
     req_form (Request (Some bob) POST
        {[ "title" := "hello"; "body" := "text"; "visibility" := "NULL" ]}
        100) !! "body" = Some raw
     ∧ sample_clean_html raw = Some body
     ∧ tbl_post (st_db (State
         (insert_post "hello" "<p>text</p>" None 2 100 sample_db) []))
       = tbl_post (st_db sample_state) ++ [row]
     ∧ p_body row = body)
  ∧ (∃ raw,
       req_form (Request (Some alice) POST
          {[ "title" := "hello"; "body" := "text"; "visibility" := "NULL" ]}
          100) !! "body" = Some raw
       ∧ (∃ p, p ∈ tbl_post (st_db (State
                  (update_post "hello" "text" None 2 sample_db) []))
               ∧ p_id p = 2)
       ∧ ∀ p, p ∈ tbl_post (st_db (State
                 (update_post "hello" "text" None 2 sample_db) [])) →
              p_id p = 2 → p_body p = raw).
Proof.
  apply (create_sanitizes_body_update_does_not sample_clean_html
           (Request (Some bob) POST
              {[ "title" := "hello"; "body" := "text"; "visibility" := "NULL" ]}
              100)
           sample_state
           (State (insert_post "hello" "<p>text</p>" None 2 100 sample_db) [])
           (Request (Some alice) POST
              {[ "title" := "hello"; "body" := "text"; "visibility" := "NULL" ]}
              100)
           2 sample_state
           (State (update_post "hello" "text" None 2 sample_db) [])).
  - by vm_compute.
  - by vm_compute.
Defined.

(** On the sample data the two stored bodies differ. *)
Example stored_bodies_differ :
  p_body <$> last (tbl_post (insert_post "hello" "<p>text</p>" None 2 100 sample_db))
  = Some "<p>text</p>"
  ∧ p_body <$> tbl_post (update_post "hello" "text" None 2 sample_db) !! 1%nat
    = Some "text".
Proof. done. Qed.

(** ** Deleting a post *)

Lemma delete_success_inv cascade rq id s s' :
  delete cascade rq id s = (Return (redirect blog_index), s') →
  s' = State (delete_post cascade id (st_db s)) (st_flashes s).
Proof.
  unfold delete, login_required.
  destruct (g_user rq) as [v|] eqn:Hg; [|done].
  rewrite run_bind.
  destruct (get_post rq id true s) as [[r|e] s1] eqn:Hget; [|done].
  destruct (get_post_Return_inv _ _ _ _ _ _ Hget) as (-> & _ & _).
  by intros [= <-].
Qed.

(** The author's [delete] goes through. *)
Lemma run_delete_author cascade rq s P v :
  primary_keys (st_db s) → authors_exist (st_db s) → P ∈ tbl_post (st_db s) →
  g_user rq = Some v → u_id v = p_author_id P →
  delete cascade rq (p_id P) s
  = (Return (redirect blog_index),
     State (delete_post cascade (p_id P) (st_db s)) (st_flashes s)).
Proof.
  intros Hpk Hfk HP Hg Hv. unfold delete.
  rewrite (run_login_required _ _ v), run_bind by done.
  by destruct (run_get_post_author rq s P v Hpk Hfk HP Hg Hv) as (r & _ & ->).
Qed.

(** Without the cascade the comment table is not touched. *)
Lemma delete_without_cascade_keeps_comments rq id s s' :
  delete false rq id s = (Return (redirect blog_index), s') →
  tbl_comment (st_db s') = tbl_comment (st_db s).
Proof. by intros ->%delete_success_inv. Qed.

(** C8. With the cascade the spec gives the schema, for every
    successful [delete] of a post id: the comment listing of that id is
    empty afterwards, no stored comment refers to the id, and no stored
    post has it. *)
Theorem delete_removes_post_and_comments rq id s s' :
  delete true rq id s = (Return (redirect blog_index), s') →
  select_comments (st_db s') id = []
  ∧ (∀ c, c ∈ tbl_comment (st_db s') → c_post_id c ≠ id)
  ∧ (∀ p, p ∈ tbl_post (st_db s') → p_id p ≠ id).
Proof.
  intros ->%delete_success_inv. simpl.
  assert (∀ c, c ∈ filter (λ c, c_post_id c ≠ id) (tbl_comment (st_db s)) →
               c_post_id c ≠ id) as Hc.
  { intros c Hc. by apply list_elem_of_filter in Hc as [? _]. }
  split_and!; [|done|].
  - unfold select_comments. simpl. apply order_by_desc_nil.
    apply filter_none, Forall_forall. intros c Hin. by apply Hc.
  - intros p Hp. by apply list_elem_of_filter in Hp as [? _].
Qed.

Lemma delete_removes_post_and_comments_witness :
  select_comments (st_db (State (delete_post true 1 sample_db) [])) 1 = []
  ∧ (∀ c, c ∈ tbl_comment (st_db (State (delete_post true 1 sample_db) [])) →
          c_post_id c ≠ 1)
  ∧ (∀ p, p ∈ tbl_post (st_db (State (delete_post true 1 sample_db) [])) →
          p_id p ≠ 1).
Proof.
  apply (delete_removes_post_and_comments (Request (Some alice) POST ∅ 100) 1
           sample_state (State (delete_post true 1 sample_db) [])).
  by vm_compute.
Defined.

(** ** The writes keep the schema's keys

    The hypotheses [primary_keys] and [authors_exist] of the theorems
    above hold of every database the views can produce from one that
    has them: each of the five writes preserves them. *)

Lemma next_id_above ids x : x ∈ ids → x < next_id ids.
Proof.
  unfold next_id. induction ids as [|y ids IH]; intros Hx.
  - by apply elem_of_nil in Hx.
  - simpl. apply elem_of_cons in Hx as [->|Hx]; [lia|].
    specialize (IH Hx). lia.
Qed.

Lemma next_id_fresh ids : next_id ids ∉ ids.
Proof. intros Hin. apply next_id_above in Hin. lia. Qed.

Lemma NoDup_snoc_fresh (ids : list Z) : NoDup ids → NoDup (ids ++ [next_id ids]).
Proof.
  intros Hnd. apply NoDup_app. split_and!; [done| |apply NoDup_singleton].
  intros x Hx ->%list_elem_of_singleton. by apply next_id_fresh in Hx.
Qed.

Lemma NoDup_fmap_filter {A} (f : A → Z) (P : A → Prop)
    `{!∀ a, Decision (P a)} (l : list A) :
  NoDup (f <$> l) → NoDup (f <$> filter P l).
Proof.
  induction l as [|x l IH]; [done|].
  rewrite fmap_cons, NoDup_cons. intros [Hx Hnd].
  rewrite filter_cons. destruct (decide (P x)); [|by apply IH].
  rewrite fmap_cons. apply NoDup_cons. split; [|by apply IH].
  intros Hin. apply Hx.
  apply list_elem_of_fmap in Hin as (y & -> & Hy).
  apply list_elem_of_filter in Hy as [_ Hy]. by apply list_elem_of_fmap_2.
Qed.

Lemma insert_post_keeps_keys title body vis author now d :
  primary_keys d → author ∈ u_id <$> tbl_user d → authors_exist d →
  primary_keys (insert_post title body vis author now d)
  ∧ authors_exist (insert_post title body vis author now d).
Proof.
  intros [Hu Hp Hc] Ha Hfk. split.
  - split; simpl; [done| |done].
    rewrite fmap_app. by apply NoDup_snoc_fresh.
  - unfold authors_exist. simpl. apply Forall_app. split; [done|].
    by apply Forall_singleton.
Qed.

Lemma insert_comment_keeps_keys title body post_id now d :
  primary_keys d → authors_exist d →
  primary_keys (insert_comment title body post_id now d)
  ∧ authors_exist (insert_comment title body post_id now d).
Proof.
  intros [Hu Hp Hc] Hfk. split; [|done].
  split; simpl; [done|done|].
  rewrite fmap_app. by apply NoDup_snoc_fresh.
Qed.

Lemma update_post_keeps_keys title body vis id d :
  primary_keys d → authors_exist d →
  primary_keys (update_post title body vis id d)
  ∧ authors_exist (update_post title body vis id d).
Proof.
  intros [Hu Hp Hc] Hfk. split.
  - split; simpl; [done| |done].
    rewrite <- list_fmap_compose.
    erewrite list_fmap_ext; [exact Hp|].
    intros i p _. simpl. by case_bool_decide.
  - unfold authors_exist. simpl. apply Forall_fmap.
    eapply Forall_impl; [exact Hfk|].
    intros p Hin. simpl. by case_bool_decide.
Qed.

Lemma delete_post_keeps_keys cascade id d :
  primary_keys d → authors_exist d →
  primary_keys (delete_post cascade id d)
  ∧ authors_exist (delete_post cascade id d).
Proof.
  intros [Hu Hp Hc] Hfk. split.
  - split; simpl; [done|by apply NoDup_fmap_filter|].
    destruct cascade; [by apply NoDup_fmap_filter|done].
  - unfold authors_exist. simpl. apply Forall_forall. intros p Hin.
    apply list_elem_of_filter in Hin as [_ Hin].
    by apply (proj1 (Forall_forall _ _) Hfk).
Qed.

Lemma delete_comment_keeps_keys id d :
  primary_keys d → authors_exist d →
  primary_keys (delete_comment id d) ∧ authors_exist (delete_comment id d).
Proof.
  intros [Hu Hp Hc] Hfk. split; [|done].
  split; simpl; [done|done|by apply NoDup_fmap_filter].
Qed.

(** * Further properties of the views *)

(** One step of running a view on a state: a bind, a return, or a case
    split on what the view branches on. *)
Ltac run_step :=
  first
    [ rewrite run_bind
    | rewrite run_ret
    | progress simpl
    | match goal with
      | |- context [login_required _ ?rq] => unfold login_required
      | |- context [g_user ?rq] => destruct (g_user rq) eqn:?
      | |- context [bool_decide ?P] => destruct (bool_decide P) eqn:?
      | |- context [form_get ?rq ?k] =>
          unfold form_get at 1; destruct (req_form rq !! k) eqn:?
      | |- context [clean ?c ?r] => unfold clean at 1; destruct (c r) eqn:?
      | |- context [get_post ?a ?b ?c ?s] =>
          destruct (get_post a b c s) as [[?|?] ?] eqn:?
      | |- context [get_comment ?a ?b ?c ?s] =>
          destruct (get_comment a b c s) as [[?|?] ?] eqn:?
      | |- context [visible_row ?a ?b ?c ?d] =>
          destruct (visible_row a b c d) eqn:?
      | |- context [head ?l] => destruct (head l) eqn:?
      end ].

Ltac run_view :=
  unfold check_title, g_user_id, row_id, abort, raise, flash,
    execute_commit, get_db;
  repeat run_step.

(** ** The fetches write nothing *)

Lemma get_post_state rq id check s : (get_post rq id check s).2 = s.
Proof. unfold get_post. run_view; by destruct check; run_view. Qed.

Lemma get_comment_state rq id check s : (get_comment rq id check s).2 = s.
Proof. unfold get_comment. run_view; by destruct check; run_view. Qed.

Ltac fetch_state :=
  repeat match goal with
  | H : get_post ?rq ?id ?c ?s = (_, ?s') |- _ =>
      let E := fresh in
      pose proof (get_post_state rq id c s) as E; rewrite H in E;
      simpl in E; subst s'; clear H
  | H : get_comment ?rq ?id ?c ?s = (_, ?s') |- _ =>
      let E := fresh in
      pose proof (get_comment_state rq id c s) as E; rewrite H in E;
      simpl in E; subst s'; clear H
  end.

(** ** Each view does at most one write *)

Ltac title_given :=
  match goal with
  | H : bool_decide (_ = "") = false |- _ => apply bool_decide_eq_false in H
  end.

Lemma index_one_write cascade vis_eq rq s :
  one_write cascade rq (st_db s) (st_db (index vis_eq rq s).2).
Proof. rewrite run_index. constructor. Qed.

Lemma create_one_write cascade clean_html rq s :
  one_write cascade rq (st_db s) (st_db (create clean_html rq s).2).
Proof.
  unfold create. run_view; try title_given; by constructor.
Qed.

Lemma post_one_write cascade vis_eq rq id s :
  one_write cascade rq (st_db s) (st_db (post vis_eq rq id s).2).
Proof.
  rewrite run_post. run_view; try title_given; by constructor.
Qed.

Lemma update_one_write cascade rq id s :
  one_write cascade rq (st_db s) (st_db (update rq id s).2).
Proof.
  unfold update. run_view; fetch_state; try title_given; by constructor.
Qed.

Lemma delete_one_write cascade rq id s :
  one_write cascade rq (st_db s) (st_db (delete cascade rq id s).2).
Proof. unfold delete. run_view; fetch_state; constructor. Qed.

Lemma deleteComment_one_write cascade rq id s :
  one_write cascade rq (st_db s) (st_db (deleteComment rq id s).2).
Proof. unfold deleteComment. run_view; fetch_state; constructor. Qed.

Lemma maybeNone_not_NULL vis : maybeNone vis ≠ Some "NULL".
Proof. unfold maybeNone. case_bool_decide; congruence. Qed.

Lemma one_write_users cascade rq d d' :
  one_write cascade rq d d' → tbl_user d' = tbl_user d.
Proof. by destruct 1. Qed.

Lemma one_write_keys cascade rq d d' :
  one_write cascade rq d d' →
  viewer_stored rq d → primary_keys d → authors_exist d →
  primary_keys d' ∧ authors_exist d'.
Proof.
  intros Hw Hv Hpk Hfk. destruct Hw as [|v ? ? ? Hg _| | | |].
  - done.
  - apply insert_post_keeps_keys; [done|by apply Hv|done].
  - by apply insert_comment_keeps_keys.
  - by apply update_post_keeps_keys.
  - by apply delete_post_keeps_keys.
  - by apply delete_comment_keeps_keys.
Qed.

Lemma one_write_no_literal_null cascade rq d d' :
  one_write cascade rq d d' → no_literal_null d → no_literal_null d'.
Proof.
  unfold no_literal_null. intros Hw Hd. destruct Hw; simpl; try done.
  - apply Forall_app. split; [done|].
    apply Forall_singleton. apply maybeNone_not_NULL.
  - apply Forall_fmap. eapply Forall_impl; [exact Hd|].
    intros p Hp. simpl. case_bool_decide; [apply maybeNone_not_NULL|done].
  - apply Forall_forall. intros p Hp.
    apply list_elem_of_filter in Hp as [_ Hp].
    by apply (proj1 (Forall_forall _ _) Hd).
Qed.

(** ** What no request does *)

(** X1. None of the six views writes the user table: whatever the
    request and the outcome, the stored users are the same afterwards. *)
Theorem views_never_write_users clean_html vis_eq cascade rq id s :
  tbl_user (st_db (index vis_eq rq s).2) = tbl_user (st_db s)
  ∧ tbl_user (st_db (create clean_html rq s).2) = tbl_user (st_db s)
  ∧ tbl_user (st_db (post vis_eq rq id s).2) = tbl_user (st_db s)
  ∧ tbl_user (st_db (update rq id s).2) = tbl_user (st_db s)
  ∧ tbl_user (st_db (delete cascade rq id s).2) = tbl_user (st_db s)
  ∧ tbl_user (st_db (deleteComment rq id s).2) = tbl_user (st_db s).
Proof.
  split_and!; eapply (one_write_users cascade rq).
  - apply index_one_write.
  - apply create_one_write.
  - apply post_one_write.
  - apply update_one_write.
  - apply delete_one_write.
  - apply deleteComment_one_write.
Qed.

(** X2. The schema's keys are an invariant of the views: from a
    database with unique ids in each table and every post's author a
    stored user, a request whose viewer (if any) is a stored user
    leaves, through any of the six views and whatever the outcome, a
    database with the same two properties. *)
Theorem views_keep_schema_keys clean_html vis_eq cascade rq id s :
  viewer_stored rq (st_db s) →
  primary_keys (st_db s) → authors_exist (st_db s) →
  keys_kept (index vis_eq rq s)
  ∧ keys_kept (create clean_html rq s)
  ∧ keys_kept (post vis_eq rq id s)
  ∧ keys_kept (update rq id s)
  ∧ keys_kept (delete cascade rq id s)
  ∧ keys_kept (deleteComment rq id s).
Proof.
  intros Hv Hpk Hfk.
  split_and!; unfold keys_kept;
    (apply (one_write_keys cascade rq (st_db s)); [|done|done|done]).
  - apply index_one_write.
  - apply create_one_write.
  - apply post_one_write.
  - apply update_one_write.
  - apply delete_one_write.
  - apply deleteComment_one_write.
Qed.

Lemma views_keep_schema_keys_witness :
  keys_kept (index sample_vis_eq
    (Request (Some bob) POST
       {[ "title" := "hello"; "body" := "text"; "visibility" := "2" ]} 100)
    sample_state)
  ∧ keys_kept (create sample_clean_html
    (Request (Some bob) POST
       {[ "title" := "hello"; "body" := "text"; "visibility" := "2" ]} 100)
    sample_state)
  ∧ keys_kept (post sample_vis_eq
    (Request (Some bob) POST
       {[ "title" := "hello"; "body" := "text"; "visibility" := "2" ]} 100)
    1 sample_state)
  ∧ keys_kept (update
    (Request (Some bob) POST
       {[ "title" := "hello"; "body" := "text"; "visibility" := "2" ]} 100)
    1 sample_state)
  ∧ keys_kept (delete true
    (Request (Some bob) POST
       {[ "title" := "hello"; "body" := "text"; "visibility" := "2" ]} 100)
    1 sample_state)
  ∧ keys_kept (deleteComment
    (Request (Some bob) POST
       {[ "title" := "hello"; "body" := "text"; "visibility" := "2" ]} 100)
    1 sample_state).
Proof.
  apply (views_keep_schema_keys sample_clean_html sample_vis_eq true
           (Request (Some bob) POST
              {[ "title" := "hello"; "body" := "text"; "visibility" := "2" ]}
              100)
           1 sample_state).
  - intros v [= <-]. simpl. set_solver.
  - exact sample_db_primary_keys.
  - exact sample_db_authors_exist.
Defined.

(** X3. [maybeNone] keeps the text "NULL" out of the visibility column:
    when no stored post has the text "NULL" as its visibility, none has
    after any request to any of the six views. *)
Theorem views_never_store_literal_NULL clean_html vis_eq cascade rq id s :
  no_literal_null (st_db s) →
  no_literal_null (st_db (index vis_eq rq s).2)
  ∧ no_literal_null (st_db (create clean_html rq s).2)
  ∧ no_literal_null (st_db (post vis_eq rq id s).2)
  ∧ no_literal_null (st_db (update rq id s).2)
  ∧ no_literal_null (st_db (delete cascade rq id s).2)
  ∧ no_literal_null (st_db (deleteComment rq id s).2).
Proof.
  intros Hd.
  split_and!;
    (apply (one_write_no_literal_null cascade rq (st_db s)); [|done]).
  - apply index_one_write.
  - apply create_one_write.
  - apply post_one_write.
  - apply update_one_write.
  - apply delete_one_write.
  - apply deleteComment_one_write.
Qed.

Lemma sample_db_no_literal_null : no_literal_null sample_db.
Proof. by apply (bool_decide_unpack _). Qed.

Lemma views_never_store_literal_NULL_witness :
  no_literal_null (st_db (index sample_vis_eq
    (Request (Some alice) POST
       {[ "title" := "t"; "body" := "text"; "visibility" := "NULL" ]} 100)
    sample_state).2)
  ∧ no_literal_null (st_db (create sample_clean_html
    (Request (Some alice) POST
       {[ "title" := "t"; "body" := "text"; "visibility" := "NULL" ]} 100)
    sample_state).2)
  ∧ no_literal_null (st_db (post sample_vis_eq
    (Request (Some alice) POST
       {[ "title" := "t"; "body" := "text"; "visibility" := "NULL" ]} 100)
    2 sample_state).2)
  ∧ no_literal_null (st_db (update
    (Request (Some alice) POST
       {[ "title" := "t"; "body" := "text"; "visibility" := "NULL" ]} 100)
    2 sample_state).2)
  ∧ no_literal_null (st_db (delete true
    (Request (Some alice) POST
       {[ "title" := "t"; "body" := "text"; "visibility" := "NULL" ]} 100)
    2 sample_state).2)
  ∧ no_literal_null (st_db (deleteComment
    (Request (Some alice) POST
       {[ "title" := "t"; "body" := "text"; "visibility" := "NULL" ]} 100)
    2 sample_state).2).
Proof.
  apply (views_never_store_literal_NULL sample_clean_html sample_vis_eq true
           (Request (Some alice) POST
              {[ "title" := "t"; "body" := "text"; "visibility" := "NULL" ]}
              100)
           2 sample_state).
  exact sample_db_no_literal_null.
Defined.

(** X4. A GET writes nothing and flashes nothing: with the request
    method GET, [index], [create], [post] and [update] leave the whole
    state as it was, whatever they answer. *)
Theorem get_requests_write_nothing clean_html vis_eq rq id s :
  req_method rq = GET →
  (index vis_eq rq s).2 = s
  ∧ (create clean_html rq s).2 = s
  ∧ (post vis_eq rq id s).2 = s
  ∧ (update rq id s).2 = s.
Proof.
  intros Hm.
  assert (bool_decide (req_method rq = POST) = false) as Hpost
    by (rewrite Hm; by apply bool_decide_eq_false_2).
  split_and!.
  - by rewrite run_index.
  - unfold create, login_required.
    destruct (g_user rq); [|done]. by rewrite run_bind, Hpost.
  - rewrite run_post. simpl. rewrite Hpost. unfold row_id.
    by destruct (visible_row _ _ _ _).
  - unfold update, login_required.
    destruct (g_user rq); [|done]. rewrite run_bind.
    destruct (get_post rq id true s) as [[r|e] s1] eqn:Hget;
      fetch_state; [|done].
    by rewrite run_bind, Hpost.
Qed.

Lemma get_requests_write_nothing_witness :
  (index sample_vis_eq (Request (Some alice) GET ∅ 100) sample_state).2
  = sample_state
  ∧ (create sample_clean_html (Request (Some alice) GET ∅ 100) sample_state).2
    = sample_state
  ∧ (post sample_vis_eq (Request (Some alice) GET ∅ 100) 2 sample_state).2
    = sample_state
  ∧ (update (Request (Some alice) GET ∅ 100) 2 sample_state).2 = sample_state.
Proof.
  apply (get_requests_write_nothing sample_clean_html sample_vis_eq
           (Request (Some alice) GET ∅ 100) 2 sample_state).
  reflexivity.
Defined.

(** ** Fetching a post by id *)

(** X5. For an id in the store's integer range that no stored post
    has, [get_post] aborts with 404 whoever the viewer is and whether
    or not the author is checked; for a logged-in viewer [update] and
    [delete] abort with 404 as well, before the form is read, and the
    state is unchanged. *)
Theorem unknown_post_id_is_404 cascade rq s id check :
  sqlite_integer id →
  id ∉ p_id <$> tbl_post (st_db s) →
  get_post rq id check s = (Raise (HTTPException 404), s)
  ∧ (is_Some (g_user rq) →
     update rq id s = (Raise (HTTPException 404), s)
     ∧ delete cascade rq id s = (Raise (HTTPException 404), s)).
Proof.
  intros _ Hid. split; [by apply run_get_post_missing|].
  intros [v Hg]. unfold update, delete.
  rewrite !(run_login_required _ _ v), !run_bind by done.
  by rewrite run_get_post_missing.
Qed.

Lemma unknown_post_id_is_404_witness :
  get_post (Request (Some bob) POST ∅ 100) 7 true sample_state
  = (Raise (HTTPException 404), sample_state)
  ∧ (is_Some (g_user (Request (Some bob) POST ∅ 100)) →
     update (Request (Some bob) POST ∅ 100) 7 sample_state
     = (Raise (HTTPException 404), sample_state)
     ∧ delete false (Request (Some bob) POST ∅ 100) 7 sample_state
       = (Raise (HTTPException 404), sample_state)).
Proof.
  apply (unknown_post_id_is_404 false (Request (Some bob) POST ∅ 100)
           sample_state 7 true).
  - unfold sqlite_integer. lia.
  - by apply (bool_decide_unpack _).
Defined.

(** X6. [get_post] applies no visibility filter. For a stored post P,
    restricted or not: without the author check it returns P's row,
    with the author's username, to every viewer; with the check it
    returns the row to the viewer whose id is P.author_id, and with the
    check and no user it raises [TypeError] ([g.user] is [None]). *)
Theorem get_post_applies_no_visibility_filter rq s P :
  primary_keys (st_db s) → authors_exist (st_db s) → P ∈ tbl_post (st_db s) →
  ∃ u, u ∈ tbl_user (st_db s) ∧ u_id u = p_author_id P
       ∧ get_post rq (p_id P) false s = (Return (PostRow P (u_username u)), s)
       ∧ (g_user rq = None →
          get_post rq (p_id P) true s = (Raise TypeError, s))
       ∧ (∀ v, g_user rq = Some v → u_id v = p_author_id P →
          get_post rq (p_id P) true s
          = (Return (PostRow P (u_username u)), s)).
Proof.
  intros Hpk Hfk HP.
  destruct (fetch_by_id _ P Hpk Hfk HP) as (u & Hu & E & Hrow).
  exists u. split_and!; [done|done| | |].
  - unfold get_post. rewrite run_bind. simpl. by rewrite Hrow.
  - intros Hg. unfold get_post. rewrite run_bind. simpl.
    rewrite Hrow. simpl. rewrite run_bind. unfold g_user_id. by rewrite Hg.
  - intros v Hg Hv. unfold get_post. rewrite run_bind. simpl.
    rewrite Hrow. simpl. rewrite run_bind, (run_g_user_id _ v) by done.
    by rewrite bool_decide_eq_false_2 by (intros ?; congruence).
Qed.

Lemma get_post_applies_no_visibility_filter_witness :
  ∃ u, u ∈ tbl_user (st_db sample_state)
       ∧ u_id u = p_author_id (Post 2 "private" "b2" (Some "1") 20 1)
       ∧ get_post (Request None GET ∅ 100)
           (p_id (Post 2 "private" "b2" (Some "1") 20 1)) false sample_state
         = (Return (PostRow (Post 2 "private" "b2" (Some "1") 20 1)
                      (u_username u)), sample_state)
       ∧ (g_user (Request None GET ∅ 100) = None →
          get_post (Request None GET ∅ 100)
            (p_id (Post 2 "private" "b2" (Some "1") 20 1)) true sample_state
          = (Raise TypeError, sample_state))
       ∧ (∀ v, g_user (Request None GET ∅ 100) = Some v →
          u_id v = p_author_id (Post 2 "private" "b2" (Some "1") 20 1) →
          get_post (Request None GET ∅ 100)
            (p_id (Post 2 "private" "b2" (Some "1") 20 1)) true sample_state
          = (Return (PostRow (Post 2 "private" "b2" (Some "1") 20 1)
                       (u_username u)), sample_state)).
Proof.
  apply (get_post_applies_no_visibility_filter (Request None GET ∅ 100)
           sample_state (Post 2 "private" "b2" (Some "1") 20 1)).
  - exact sample_db_primary_keys.
  - exact sample_db_authors_exist.
  - simpl. set_solver.
Defined.

(** ** Updating a post *)

Lemma stored_post_by_id (l : list post_rec) P q :
  NoDup (p_id <$> l) → P ∈ l → q ∈ l → p_id q = p_id P → q = P.
Proof.
  intros Hnd HP Hq E.
  assert (q ∈ filter (λ y, p_id y = p_id P) l) as Hin
    by by apply list_elem_of_filter.
  rewrite filter_key_unique in Hin by done.
  by apply list_elem_of_singleton in Hin.
Qed.

(** A POST to [update] by the author with all three fields. *)
Lemma run_update_post rq s P v title raw vis :
  primary_keys (st_db s) → authors_exist (st_db s) → P ∈ tbl_post (st_db s) →
  g_user rq = Some v → u_id v = p_author_id P → req_method rq = POST →
  req_form rq !! "title" = Some title →
  req_form rq !! "body" = Some raw →
  req_form rq !! "visibility" = Some vis →
  ∃ u, u ∈ tbl_user (st_db s) ∧ u_id u = p_author_id P ∧
    update rq (p_id P) s
    = if bool_decide (title = "") then
        (Return (render_template
                   (update_html (PostRow P (u_username u))
                      (select_users (st_db s)))),
         State (st_db s) (st_flashes s ++ [title_required]))
      else
        (Return (redirect blog_index),
         State (update_post title raw (maybeNone vis) (p_id P) (st_db s))
           (st_flashes s)).
Proof.
  intros Hpk Hfk HP Hg Hv Hm Ht Hb Hvis.
  destruct (run_get_post_found rq s P true Hpk Hfk HP) as (u & Hu & E & Hget).
  exists u. split_and!; [done|done|].
  unfold update.
  rewrite (run_login_required _ _ v), run_bind, Hget by done.
  rewrite run_bind, (run_g_user_id _ v) by done.
  rewrite bool_decide_eq_false_2 by (intros ?; congruence).
  rewrite run_ret, run_bind, Hm. simpl.
  rewrite run_bind, (run_form_get _ _ title) by done.
  rewrite run_bind, (run_form_get _ _ raw) by done.
  rewrite run_bind, (run_form_get _ _ vis) by done.
  unfold check_title. by case_bool_decide.
Qed.

(** X7. A POST to [update] by the author of a stored post P, with a
    non-empty title: the view redirects to the index, and the post
    table is the old one, row by row, with P replaced by the row with
    the submitted title, body and [maybeNone] of the submitted
    visibility -- P's id, creation time and author are kept, every
    other post is as it was, no row is added or removed, and the users
    and the comments are as they were. *)
Theorem update_by_author_rewrites_one_post rq s P v title raw vis :
  primary_keys (st_db s) → authors_exist (st_db s) → P ∈ tbl_post (st_db s) →
  g_user rq = Some v → u_id v = p_author_id P → req_method rq = POST →
  req_form rq !! "title" = Some title → title ≠ "" →
  req_form rq !! "body" = Some raw →
  req_form rq !! "visibility" = Some vis →
  ∃ d',
    update rq (p_id P) s = (Return (redirect blog_index), State d' (st_flashes s))
    ∧ tbl_user d' = tbl_user (st_db s)
    ∧ tbl_comment d' = tbl_comment (st_db s)
    ∧ tbl_post d'
      = (λ q, if bool_decide (q = P)
              then Post (p_id P) title raw (maybeNone vis)
                     (p_created P) (p_author_id P)
              else q) <$> tbl_post (st_db s).
Proof.
  intros Hpk Hfk HP Hg Hv Hm Ht Hne Hb Hvis.
  destruct (run_update_post rq s P v title raw vis) as (u & _ & _ & ->);
    try done.
  rewrite bool_decide_eq_false_2 by done.
  eexists. split_and!; [done|done|done|].
  simpl. apply list_fmap_ext. intros i q Hq.
  destruct (decide (q = P)) as [->|Hne'].
  - by rewrite !bool_decide_eq_true_2.
  - rewrite (bool_decide_eq_false_2 (q = P)) by done.
    rewrite bool_decide_eq_false_2; [done|].
    intros E. apply Hne'.
    apply (stored_post_by_id (tbl_post (st_db s))); try done; [apply Hpk|].
    by apply list_elem_of_lookup_2 in Hq.
Qed.

Lemma update_by_author_rewrites_one_post_witness :
  ∃ d',
    update (Request (Some alice) POST
              {[ "title" := "t"; "body" := "<b>x</b>"; "visibility" := "NULL" ]}
              100) (p_id (Post 2 "private" "b2" (Some "1") 20 1)) sample_state
    = (Return (redirect blog_index), State d' (st_flashes sample_state))
    ∧ tbl_user d' = tbl_user (st_db sample_state)
    ∧ tbl_comment d' = tbl_comment (st_db sample_state)
    ∧ tbl_post d'
      = (λ q, if bool_decide (q = Post 2 "private" "b2" (Some "1") 20 1)
              then Post (p_id (Post 2 "private" "b2" (Some "1") 20 1))
                     "t" "<b>x</b>" (maybeNone "NULL")
                     (p_created (Post 2 "private" "b2" (Some "1") 20 1))
                     (p_author_id (Post 2 "private" "b2" (Some "1") 20 1))
              else q) <$> tbl_post (st_db sample_state).
Proof.
  apply (update_by_author_rewrites_one_post
           (Request (Some alice) POST
              {[ "title" := "t"; "body" := "<b>x</b>"; "visibility" := "NULL" ]}
              100)
           sample_state (Post 2 "private" "b2" (Some "1") 20 1) alice
           "t" "<b>x</b>" "NULL").
  - exact sample_db_primary_keys.
  - exact sample_db_authors_exist.
  - simpl. set_solver.
  - reflexivity.
  - reflexivity.
  - reflexivity.
  - by vm_compute.
  - done.
  - by vm_compute.
  - by vm_compute.
Defined.

(** X8. A POST to [update] by the author of a stored post P with the
    empty title: the message is flashed, the database is unchanged, and
    the update form is rendered again with P as stored (not as
    submitted) and the users. *)
Theorem update_empty_title_rejected rq s P v raw vis :
  primary_keys (st_db s) → authors_exist (st_db s) → P ∈ tbl_post (st_db s) →
  g_user rq = Some v → u_id v = p_author_id P → req_method rq = POST →
  req_form rq !! "title" = Some "" →
  req_form rq !! "body" = Some raw →
  req_form rq !! "visibility" = Some vis →
  ∃ u, u ∈ tbl_user (st_db s) ∧ u_id u = p_author_id P ∧
    update rq (p_id P) s
    = (Return (render_template
                 (update_html (PostRow P (u_username u))
                    (select_users (st_db s)))),
       State (st_db s) (st_flashes s ++ [title_required])).
Proof.
  intros Hpk Hfk HP Hg Hv Hm Ht Hb Hvis.
  destruct (run_update_post rq s P v "" raw vis) as (u & Hu & E & ->);
    try done.
  by exists u.
Qed.

Lemma update_empty_title_rejected_witness :
  ∃ u, u ∈ tbl_user (st_db sample_state)
       ∧ u_id u = p_author_id (Post 2 "private" "b2" (Some "1") 20 1) ∧
    update (Request (Some alice) POST
              {[ "title" := ""; "body" := "new"; "visibility" := "NULL" ]} 100)
      (p_id (Post 2 "private" "b2" (Some "1") 20 1)) sample_state
    = (Return (render_template
                 (update_html (PostRow (Post 2 "private" "b2" (Some "1") 20 1)
                                 (u_username u))
                    (select_users (st_db sample_state)))),
       State (st_db sample_state)
         (st_flashes sample_state ++ [title_required])).
Proof.
  apply (update_empty_title_rejected
           (Request (Some alice) POST
              {[ "title" := ""; "body" := "new"; "visibility" := "NULL" ]} 100)
           sample_state (Post 2 "private" "b2" (Some "1") 20 1) alice
           "new" "NULL").
  - exact sample_db_primary_keys.
  - exact sample_db_authors_exist.
  - simpl. set_solver.
  - reflexivity.
  - reflexivity.
  - reflexivity.
  - by vm_compute.
  - by vm_compute.
  - by vm_compute.
Defined.

(** ** Creating a post: the other paths *)

(** X9. A POST to [create] by a logged-in viewer with a field missing
    fails at the first step that fails, in the order the view takes
    them -- read title, read body, clean the body, read visibility --
    and writes nothing, also when the submitted title is empty: no
    title gives [BadRequestKeyError] for title; a title and no body,
    [BadRequestKeyError] for body; a title and a body the cleaner
    raises on, the cleaner's exception, whether or not a visibility
    was submitted; a title, a body the cleaner accepts and no
    visibility, [BadRequestKeyError] for visibility. *)
Theorem create_missing_field_is_bad_request clean_html rq s v :
  g_user rq = Some v → req_method rq = POST →
  (req_form rq !! "title" = None →
     create clean_html rq s = (Raise (BadRequestKeyError "title"), s))
  ∧ (is_Some (req_form rq !! "title") → req_form rq !! "body" = None →
     create clean_html rq s = (Raise (BadRequestKeyError "body"), s))
  ∧ (∀ raw, is_Some (req_form rq !! "title") →
       req_form rq !! "body" = Some raw → clean_html raw = None →
       create clean_html rq s = (Raise CleanerError, s))
  ∧ (∀ raw, is_Some (req_form rq !! "title") →
       req_form rq !! "body" = Some raw → is_Some (clean_html raw) →
       req_form rq !! "visibility" = None →
       create clean_html rq s = (Raise (BadRequestKeyError "visibility"), s)).
Proof.
  intros Hg Hm. unfold create.
  rewrite (run_login_required _ _ v), run_bind, Hm by done. simpl.
  split_and!.
  - intros Ht. rewrite run_bind. unfold form_get at 1. by rewrite Ht.
  - intros [title Ht] Hb.
    rewrite run_bind, (run_form_get _ _ title), run_bind by done.
    unfold form_get at 1. by rewrite Hb.
  - intros raw [title Ht] Hb Hc.
    rewrite run_bind, (run_form_get _ _ title) by done.
    rewrite run_bind, (run_form_get _ _ raw), run_bind by done.
    unfold clean. by rewrite Hc.
  - intros raw [title Ht] Hb [body Hc] Hv.
    rewrite run_bind, (run_form_get _ _ title) by done.
    rewrite run_bind, (run_form_get _ _ raw) by done.
    rewrite run_bind, (run_clean _ _ body), run_bind by done.
    unfold form_get. by rewrite Hv.
Qed.

Lemma create_missing_field_is_bad_request_witness :
  (req_form (Request (Some bob) POST {[ "title" := "" ]} 100) !! "title" = None →
     create sample_clean_html (Request (Some bob) POST {[ "title" := "" ]} 100)
       sample_state
     = (Raise (BadRequestKeyError "title"), sample_state))
  ∧ (is_Some (req_form (Request (Some bob) POST {[ "title" := "" ]} 100)
                !! "title") →
     req_form (Request (Some bob) POST {[ "title" := "" ]} 100) !! "body" = None →
     create sample_clean_html (Request (Some bob) POST {[ "title" := "" ]} 100)
       sample_state
     = (Raise (BadRequestKeyError "body"), sample_state))
  ∧ (∀ raw,
       is_Some (req_form (Request (Some bob) POST {[ "title" := "" ]} 100)
                  !! "title") →
       req_form (Request (Some bob) POST {[ "title" := "" ]} 100) !! "body"
       = Some raw →
       sample_clean_html raw = None →
       create sample_clean_html (Request (Some bob) POST {[ "title" := "" ]} 100)
         sample_state
       = (Raise CleanerError, sample_state))
  ∧ (∀ raw,
       is_Some (req_form (Request (Some bob) POST {[ "title" := "" ]} 100)
                  !! "title") →
       req_form (Request (Some bob) POST {[ "title" := "" ]} 100) !! "body"
       = Some raw →
       is_Some (sample_clean_html raw) →
       req_form (Request (Some bob) POST {[ "title" := "" ]} 100)
         !! "visibility" = None →
       create sample_clean_html (Request (Some bob) POST {[ "title" := "" ]} 100)
         sample_state
       = (Raise (BadRequestKeyError "visibility"), sample_state)).
Proof.
  apply (create_missing_field_is_bad_request sample_clean_html
           (Request (Some bob) POST {[ "title" := "" ]} 100) sample_state bob).
  - reflexivity.
  - reflexivity.
Defined.

(** X10. [create] cleans the body before it looks at the title: when
    the cleaner raises on the submitted body, the exception leaves the
    view whatever the title is, and nothing is written or flashed. *)
Theorem create_cleaner_failure_precedes_validation clean_html rq s v title raw :
  g_user rq = Some v → req_method rq = POST →
  req_form rq !! "title" = Some title →
  req_form rq !! "body" = Some raw → clean_html raw = None →
  create clean_html rq s = (Raise CleanerError, s).
Proof.
  intros Hg Hm Ht Hb Hc. unfold create.
  rewrite (run_login_required _ _ v), run_bind, Hm by done. simpl.
  rewrite run_bind, (run_form_get _ _ title) by done.
  rewrite run_bind, (run_form_get _ _ raw), run_bind by done.
  unfold clean. by rewrite Hc.
Qed.

Lemma create_cleaner_failure_precedes_validation_witness :
  create sample_clean_html
    (Request (Some bob) POST
       {[ "title" := ""; "body" := ""; "visibility" := "NULL" ]} 100)
    sample_state
  = (Raise CleanerError, sample_state).
Proof.
  apply (create_cleaner_failure_precedes_validation sample_clean_html
           (Request (Some bob) POST
              {[ "title" := ""; "body" := ""; "visibility" := "NULL" ]} 100)
           sample_state bob "" "").
  - reflexivity.
  - reflexivity.
  - by vm_compute.
  - by vm_compute.
  - by vm_compute.
Defined.

(** X11. A request to [create] by a logged-in viewer that is not a POST
    renders the form with every stored user, highest id first, and
    leaves the state as it was. *)
Theorem create_form_lists_all_users clean_html rq s v :
  g_user rq = Some v → req_method rq ≠ POST →
  ∃ users,
    create clean_html rq s = (Return (render_template (create_html users)), s)
    ∧ users ≡ₚ tbl_user (st_db s)
    ∧ StronglySorted (newer_first u_id) users.
Proof.
  intros Hg Hm. exists (select_users (st_db s)). split_and!.
  - unfold create.
    rewrite (run_login_required _ _ v), run_bind by done.
    by rewrite bool_decide_eq_false_2 by done.
  - apply order_by_desc_perm.
  - apply order_by_desc_sorted.
Qed.

Lemma create_form_lists_all_users_witness :
  ∃ users,
    create sample_clean_html (Request (Some bob) GET ∅ 100) sample_state
    = (Return (render_template (create_html users)), sample_state)
    ∧ users ≡ₚ tbl_user (st_db sample_state)
    ∧ StronglySorted (newer_first u_id) users.
Proof.
  apply (create_form_lists_all_users sample_clean_html
           (Request (Some bob) GET ∅ 100) sample_state bob).
  - reflexivity.
  - done.
Defined.

(** ** The single-post view: the other paths *)

(** X12. A GET of the single-post view at the id of a stored post P
    that is visible to the viewer renders P, with its author's
    username, and exactly the stored comments whose post_id is P's id,
    newest first; the state is unchanged. *)
Theorem post_view_renders_visible_post vis_eq rq s P :
  primary_keys (st_db s) → authors_exist (st_db s) → P ∈ tbl_post (st_db s) →
  visible_to vis_eq (g_user rq) P → req_method rq = GET →
  ∃ u comments,
    u ∈ tbl_user (st_db s) ∧ u_id u = p_author_id P
    ∧ post vis_eq rq (p_id P) s
      = (Return (render_template
                   (post_html (PostRow P (u_username u)) comments)), s)
    ∧ comments ≡ₚ filter (λ c, c_post_id c = p_id P) (tbl_comment (st_db s))
    ∧ StronglySorted (newer_first c_created) comments.
Proof.
  intros Hpk Hfk HP Hvis Hm.
  destruct (visible_row_found vis_eq _ _ P Hpk Hfk HP Hvis)
    as (u & Hu & E & Hrow).
  exists u, (select_comments (st_db s) (p_id P)).
  split_and!; [done|done| | |].
  - by rewrite (run_post_get_some vis_eq rq _ s _ Hm Hrow).
  - apply order_by_desc_perm.
  - apply order_by_desc_sorted.
Qed.

Lemma post_view_renders_visible_post_witness :
  ∃ u comments,
    u ∈ tbl_user (st_db sample_state)
    ∧ u_id u = p_author_id (Post 3 "for bob" "b3" (Some "2") 30 1)
    ∧ post sample_vis_eq (Request (Some bob) GET ∅ 100)
        (p_id (Post 3 "for bob" "b3" (Some "2") 30 1)) sample_state
      = (Return (render_template
                   (post_html (PostRow (Post 3 "for bob" "b3" (Some "2") 30 1)
                                 (u_username u)) comments)), sample_state)
    ∧ comments
      ≡ₚ filter (λ c, c_post_id c = p_id (Post 3 "for bob" "b3" (Some "2") 30 1))
           (tbl_comment (st_db sample_state))
    ∧ StronglySorted (newer_first c_created) comments.
Proof.
  apply (post_view_renders_visible_post sample_vis_eq
           (Request (Some bob) GET ∅ 100) sample_state
           (Post 3 "for bob" "b3" (Some "2") 30 1)).
  - exact sample_db_primary_keys.
  - exact sample_db_authors_exist.
  - simpl. set_solver.
  - right. left. reflexivity.
  - reflexivity.
Defined.

(** X13. A comment POSTed with the empty title on a stored post that is
    visible to the viewer is not inserted: the message is flashed, the
    database is unchanged, and the view redirects to the post's page
    (it does not render a form again, as [create] and [update] do). *)
Theorem comment_empty_title_flashes_and_redirects vis_eq rq s P body :
  primary_keys (st_db s) → authors_exist (st_db s) → P ∈ tbl_post (st_db s) →
  visible_to vis_eq (g_user rq) P → req_method rq = POST →
  req_form rq !! "title" = Some "" → req_form rq !! "body" = Some body →
  post vis_eq rq (p_id P) s
  = (Return (redirect (blog_post (p_id P))),
     State (st_db s) (st_flashes s ++ [title_required])).
Proof.
  intros Hpk Hfk HP Hvis Hm Ht Hb.
  destruct (visible_row_found vis_eq _ _ P Hpk Hfk HP Hvis)
    as (u & _ & _ & Hrow).
  rewrite run_post, Hm. simpl. rewrite Hrow.
  rewrite run_bind, (run_form_get _ _ "") by done.
  by rewrite run_bind, (run_form_get _ _ body) by done.
Qed.

Lemma comment_empty_title_flashes_and_redirects_witness :
  post sample_vis_eq
    (Request None POST {[ "title" := ""; "body" := "there" ]} 100)
    (p_id (Post 1 "public" "b1" None 10 1)) sample_state
  = (Return (redirect (blog_post (p_id (Post 1 "public" "b1" None 10 1)))),
     State (st_db sample_state) (st_flashes sample_state ++ [title_required])).
Proof.
  apply (comment_empty_title_flashes_and_redirects sample_vis_eq
           (Request None POST {[ "title" := ""; "body" := "there" ]} 100)
           sample_state (Post 1 "public" "b1" None 10 1) "there").
  - exact sample_db_primary_keys.
  - exact sample_db_authors_exist.
  - simpl. set_solver.
  - reflexivity.
  - reflexivity.
  - by vm_compute.
  - by vm_compute.
Defined.

(** X14. A POST to the single-post view without a title, or with a
    title and without a body, raises [BadRequestKeyError] for that key
    and writes nothing, for every viewer and every post id in the
    store's integer range -- stored, visible or not: the form is read
    before the fetched row is used. *)
Theorem comment_missing_field_is_bad_request vis_eq rq id s :
  sqlite_integer id →
  req_method rq = POST →
  (req_form rq !! "title" = None →
     post vis_eq rq id s = (Raise (BadRequestKeyError "title"), s))
  ∧ (is_Some (req_form rq !! "title") → req_form rq !! "body" = None →
     post vis_eq rq id s = (Raise (BadRequestKeyError "body"), s)).
Proof.
  intros _ Hm. rewrite run_post, Hm. simpl. split.
  - intros Ht. rewrite run_bind. unfold form_get at 1. by rewrite Ht.
  - intros [title Ht] Hb.
    rewrite run_bind, (run_form_get _ _ title), run_bind by done.
    unfold form_get at 1. by rewrite Hb.
Qed.

Lemma comment_missing_field_is_bad_request_witness :
  (req_form (Request None POST {[ "title" := "hi" ]} 100) !! "title" = None →
     post sample_vis_eq (Request None POST {[ "title" := "hi" ]} 100) 3
       sample_state
     = (Raise (BadRequestKeyError "title"), sample_state))
  ∧ (is_Some (req_form (Request None POST {[ "title" := "hi" ]} 100) !! "title") →
     req_form (Request None POST {[ "title" := "hi" ]} 100) !! "body" = None →
     post sample_vis_eq (Request None POST {[ "title" := "hi" ]} 100) 3
       sample_state
     = (Raise (BadRequestKeyError "body"), sample_state)).
Proof.
  apply (comment_missing_field_is_bad_request sample_vis_eq
           (Request None POST {[ "title" := "hi" ]} 100) 3 sample_state).
  - unfold sqlite_integer. lia.
  - reflexivity.
Defined.

(** ** The listing: what it contains *)

(** The rows the listing shows, for any database. *)
Lemma elem_of_listing vis_eq viewer d r :
  r ∈ order_by_desc by_created
        (filter (λ r, visible_to vis_eq viewer (row_post r)) (post_join_user d))
  ↔ visible_to vis_eq viewer (row_post r) ∧ r ∈ post_join_user d.
Proof. by rewrite elem_of_order_by_desc, list_elem_of_filter. Qed.

(** Under the keys the posts of the listing are the visible posts. *)
Lemma listing_posts vis_eq viewer d :
  primary_keys d → authors_exist d →
  row_post <$> order_by_desc by_created
     (filter (λ r, visible_to vis_eq viewer (row_post r)) (post_join_user d))
  ≡ₚ filter (visible_to vis_eq viewer) (tbl_post d).
Proof.
  intros [Hu _ _] Hfk. rewrite order_by_desc_perm.
  rewrite (where_post_join _ (visible_to vis_eq viewer)
             (λ r, visible_to vis_eq viewer (row_post r))) by done.
  rewrite row_post_join; [done|done|].
  apply Forall_forall. intros p Hp.
  apply list_elem_of_filter in Hp as [_ Hp].
  by apply (proj1 (Forall_forall _ _) Hfk).
Qed.

Lemma visible_anonymous_visible vis_eq viewer p :
  visible_to vis_eq None p → visible_to vis_eq viewer p.
Proof. destruct viewer; simpl; [by left|done]. Qed.

(** X15. Logging in never hides a post: every row of the listing an
    absent viewer gets is a row of the listing any viewer gets from the
    same state. *)
Theorem anonymous_listing_within_viewer_listing vis_eq rq0 rq s :
  g_user rq0 = None →
  ∃ posts0 posts,
    index vis_eq rq0 s = (Return (render_template (index_html posts0)), s)
    ∧ index vis_eq rq s = (Return (render_template (index_html posts)), s)
    ∧ ∀ r, r ∈ posts0 → r ∈ posts.
Proof.
  intros Hg. do 2 eexists. split_and!; [apply run_index|apply run_index|].
  intros r. rewrite Hg, !elem_of_listing.
  intros [Hvis Hr]. split; [|done]. by apply visible_anonymous_visible.
Qed.

Lemma anonymous_listing_within_viewer_listing_witness :
  ∃ posts0 posts,
    index sample_vis_eq (Request None GET ∅ 100) sample_state
    = (Return (render_template (index_html posts0)), sample_state)
    ∧ index sample_vis_eq (Request (Some bob) GET ∅ 100) sample_state
      = (Return (render_template (index_html posts)), sample_state)
    ∧ ∀ r, r ∈ posts0 → r ∈ posts.
Proof.
  apply (anonymous_listing_within_viewer_listing sample_vis_eq
           (Request None GET ∅ 100) (Request (Some bob) GET ∅ 100)
           sample_state).
  reflexivity.
Defined.

Lemma stored_post_joined d P :
  authors_exist d → P ∈ tbl_post d →
  ∃ u, u ∈ tbl_user d ∧ u_id u = p_author_id P
       ∧ PostRow P (u_username u) ∈ post_join_user d.
Proof.
  intros Hfk HP.
  pose proof (proj1 (Forall_forall _ _) Hfk P HP) as Ha.
  apply list_elem_of_fmap in Ha as (u & E & Hu).
  exists u. split_and!; [done|done|].
  rewrite post_join_user_eq. apply list_elem_of_bind.
  exists P. split; [|done].
  unfold author_rows. apply list_elem_of_bind.
  exists u. split; [left|]. by apply list_elem_of_filter.
Qed.

(** X16. An author always finds their own posts in the listing: a
    stored post whose author_id is the viewer's id is listed for that
    viewer whatever its visibility, also when it is restricted to
    another user. *)
Theorem author_sees_own_posts vis_eq rq s P v :
  authors_exist (st_db s) → P ∈ tbl_post (st_db s) →
  g_user rq = Some v → u_id v = p_author_id P →
  ∃ posts,
    index vis_eq rq s = (Return (render_template (index_html posts)), s)
    ∧ P ∈ row_post <$> posts.
Proof.
  intros Hfk HP Hg Hv. eexists. split; [apply run_index|].
  destruct (stored_post_joined _ P Hfk HP) as (u & _ & _ & Hrow).
  apply list_elem_of_fmap. exists (PostRow P (u_username u)).
  split; [done|]. apply elem_of_listing. split; [|done].
  rewrite Hg. simpl. by right; right.
Qed.

Lemma author_sees_own_posts_witness :
  ∃ posts,
    index sample_vis_eq (Request (Some alice) GET ∅ 100) sample_state
    = (Return (render_template (index_html posts)), sample_state)
    ∧ Post 3 "for bob" "b3" (Some "2") 30 1 ∈ row_post <$> posts.
Proof.
  apply (author_sees_own_posts sample_vis_eq (Request (Some alice) GET ∅ 100)
           sample_state (Post 3 "for bob" "b3" (Some "2") 30 1) alice).
  - exact sample_db_authors_exist.
  - simpl. set_solver.
  - reflexivity.
  - reflexivity.
Defined.

(** X17. The listing and the single-post view enforce the same
    visibility. For a stored post P and a GET by any viewer: P is in
    the viewer's listing exactly when the single-post view at P's id
    renders P. *)
Theorem listing_and_post_view_agree vis_eq rq s P :
  primary_keys (st_db s) → authors_exist (st_db s) → P ∈ tbl_post (st_db s) →
  req_method rq = GET →
  ∃ posts,
    index vis_eq rq s = (Return (render_template (index_html posts)), s)
    ∧ (P ∈ row_post <$> posts
       ↔ ∃ r comments,
           post vis_eq rq (p_id P) s
           = (Return (render_template (post_html r comments)), s)
           ∧ row_post r = P).
Proof.
  intros Hpk Hfk HP Hm. eexists. split; [apply run_index|].
  rewrite listing_posts, list_elem_of_filter by done. split.
  - intros [Hvis _].
    destruct (visible_row_found vis_eq _ _ P Hpk Hfk HP Hvis)
      as (u & _ & _ & Hrow).
    do 2 eexists. split; [by apply run_post_get_some|done].
  - intros (r & comments & Hrun & _). split; [|done].
    destruct (decide (visible_to vis_eq (g_user rq) P)) as [|Hno]; [done|].
    exfalso. eapply (run_post_none_no_page vis_eq rq (p_id P) s); [|exact Hrun].
    by apply visible_row_hidden.
Qed.

Lemma listing_and_post_view_agree_witness :
  ∃ posts,
    index sample_vis_eq (Request (Some carol) GET ∅ 100) sample_state
    = (Return (render_template (index_html posts)), sample_state)
    ∧ (Post 3 "for bob" "b3" (Some "2") 30 1 ∈ row_post <$> posts
       ↔ ∃ r comments,
           post sample_vis_eq (Request (Some carol) GET ∅ 100)
             (p_id (Post 3 "for bob" "b3" (Some "2") 30 1)) sample_state
           = (Return (render_template (post_html r comments)), sample_state)
           ∧ row_post r = Post 3 "for bob" "b3" (Some "2") 30 1).
Proof.
  apply (listing_and_post_view_agree sample_vis_eq
           (Request (Some carol) GET ∅ 100) sample_state
           (Post 3 "for bob" "b3" (Some "2") 30 1)).
  - exact sample_db_primary_keys.
  - exact sample_db_authors_exist.
  - simpl. set_solver.
  - reflexivity.
Defined.

(** X18. Under the schema's keys the listing shows no post twice: the
    ids of its rows are pairwise different. *)
Theorem listing_has_no_duplicates vis_eq rq s :
  primary_keys (st_db s) → authors_exist (st_db s) →
  ∃ posts,
    index vis_eq rq s = (Return (render_template (index_html posts)), s)
    ∧ NoDup ((λ r, p_id (row_post r)) <$> posts).
Proof.
  intros Hpk Hfk. eexists. split; [apply run_index|].
  rewrite (list_fmap_compose row_post p_id), listing_posts by done.
  apply NoDup_fmap_filter, Hpk.
Qed.

Lemma listing_has_no_duplicates_witness :
  ∃ posts,
    index sample_vis_eq (Request (Some alice) GET ∅ 100) sample_state
    = (Return (render_template (index_html posts)), sample_state)
    ∧ NoDup ((λ r, p_id (row_post r)) <$> posts).
Proof.
  apply (listing_has_no_duplicates sample_vis_eq
           (Request (Some alice) GET ∅ 100) sample_state).
  - exact sample_db_primary_keys.
  - exact sample_db_authors_exist.
Defined.

(** ** Requests one after another *)

(** X19. What [create] inserted can be read back. After a successful
    POST to [create] by a stored user, the new row -- with the cleaned
    body and the request's time -- is in that viewer's listing, and
    [get_post] with the author check returns it at its new id. *)
Theorem created_post_is_listed_and_fetched
    clean_html vis_eq rq s v title raw body vis :
  primary_keys (st_db s) → authors_exist (st_db s) →
  g_user rq = Some v → u_id v ∈ u_id <$> tbl_user (st_db s) →
  req_method rq = POST →
  req_form rq !! "title" = Some title → title ≠ "" →
  req_form rq !! "body" = Some raw → clean_html raw = Some body →
  req_form rq !! "visibility" = Some vis →
  ∃ row s',
    create clean_html rq s = (Return (redirect blog_index), s')
    ∧ tbl_post (st_db s') = tbl_post (st_db s) ++ [row]
    ∧ p_body row = body ∧ p_created row = req_now rq
    ∧ (∃ posts,
         index vis_eq rq s' = (Return (render_template (index_html posts)), s')
         ∧ row ∈ row_post <$> posts)
    ∧ (∃ r, get_post rq (p_id row) true s' = (Return r, s')
            ∧ row_post r = row).
Proof.
  intros Hpk Hfk Hg Hv Hm Ht Hne Hb Hc Hvis.
  rewrite (run_create_post clean_html rq s v title raw body vis) by done.
  rewrite bool_decide_eq_false_2 by done.
  set (d' := insert_post title body (maybeNone vis) (u_id v) (req_now rq)
               (st_db s)).
  destruct (insert_post_keeps_keys title body (maybeNone vis) (u_id v)
              (req_now rq) (st_db s) Hpk Hv Hfk) as [Hpk' Hfk'].
  fold d' in Hpk', Hfk'.
  set (row := Post (next_id (p_id <$> tbl_post (st_db s))) title body
                (maybeNone vis) (req_now rq) (u_id v)).
  assert (row ∈ tbl_post d') as Hrow.
  { simpl. apply elem_of_app. right. left. }
  exists row, (State d' (st_flashes s)).
  split_and!; [done|done|done|done| |].
  - eexists. split; [apply run_index|].
    destruct (stored_post_joined d' row Hfk' Hrow) as (u & _ & _ & Hin).
    apply list_elem_of_fmap. exists (PostRow row (u_username u)).
    split; [done|]. apply elem_of_listing. split; [|done].
    rewrite Hg. simpl. by right; right.
  - destruct (run_get_post_author rq (State d' (st_flashes s)) row v)
      as (r & Hr & Hget); try done.
    by exists r.
Qed.

Lemma created_post_is_listed_and_fetched_witness :
  ∃ row s',
    create sample_clean_html
      (Request (Some bob) POST
         {[ "title" := "mine"; "body" := "text"; "visibility" := "2" ]} 100)
      sample_state
    = (Return (redirect blog_index), s')
    ∧ tbl_post (st_db s') = tbl_post (st_db sample_state) ++ [row]
    ∧ p_body row = "<p>text</p>"
    ∧ p_created row
      = req_now (Request (Some bob) POST
           {[ "title" := "mine"; "body" := "text"; "visibility" := "2" ]} 100)
    ∧ (∃ posts,
         index sample_vis_eq
           (Request (Some bob) POST
              {[ "title" := "mine"; "body" := "text"; "visibility" := "2" ]}
              100) s'
         = (Return (render_template (index_html posts)), s')
         ∧ row ∈ row_post <$> posts)
    ∧ (∃ r, get_post
              (Request (Some bob) POST
                 {[ "title" := "mine"; "body" := "text"; "visibility" := "2" ]}
                 100) (p_id row) true s'
            = (Return r, s')
            ∧ row_post r = row).
Proof.
  apply (created_post_is_listed_and_fetched sample_clean_html sample_vis_eq
           (Request (Some bob) POST
              {[ "title" := "mine"; "body" := "text"; "visibility" := "2" ]}
              100)
           sample_state bob "mine" "text" "<p>text</p>" "2").
  - exact sample_db_primary_keys.
  - exact sample_db_authors_exist.
  - reflexivity.
  - simpl. set_solver.
  - reflexivity.
  - by vm_compute.
  - done.
  - by vm_compute.
  - by vm_compute.
  - by vm_compute.
Defined.

(** X20. A comment that was accepted is shown. After a POST of a
    comment with a non-empty title on a stored post P visible to the
    viewer, a GET of the single-post view by the same viewer renders P
    with a comment list that contains the new comment: the submitted
    title and body (unchanged), P's id, the request's time. *)
Theorem accepted_comment_is_shown vis_eq rq rq' s P title body :
  primary_keys (st_db s) → authors_exist (st_db s) → P ∈ tbl_post (st_db s) →
  visible_to vis_eq (g_user rq) P → req_method rq = POST →
  req_form rq !! "title" = Some title → title ≠ "" →
  req_form rq !! "body" = Some body →
  g_user rq' = g_user rq → req_method rq' = GET →
  ∃ s' u comments,
    post vis_eq rq (p_id P) s = (Return (redirect (blog_post (p_id P))), s')
    ∧ post vis_eq rq' (p_id P) s'
      = (Return (render_template
                   (post_html (PostRow P (u_username u)) comments)), s')
    ∧ ∃ c, c ∈ comments ∧ c_title c = title ∧ c_body c = body
           ∧ c_post_id c = p_id P ∧ c_created c = req_now rq.
Proof.
  intros Hpk Hfk HP Hvis Hm Ht Hne Hb Hg' Hm'.
  destruct (visible_row_found vis_eq _ _ P Hpk Hfk HP Hvis)
    as (u0 & _ & _ & Hrow).
  rewrite (run_post_comment vis_eq rq _ s _ title body Hm Ht Hne Hb Hrow).
  simpl.
  set (d' := insert_comment title body (p_id P) (req_now rq) (st_db s)).
  destruct (insert_comment_keeps_keys title body (p_id P) (req_now rq)
              (st_db s) Hpk Hfk) as [Hpk' Hfk'].
  fold d' in Hpk', Hfk'.
  assert (visible_to vis_eq (g_user rq') P) as Hvis' by by rewrite Hg'.
  destruct (visible_row_found vis_eq (g_user rq') d' P Hpk' Hfk' HP Hvis')
    as (u & _ & _ & Hrow').
  exists (State d' (st_flashes s)), u, (select_comments d' (p_id P)).
  split_and!; [done| |].
  - by rewrite (run_post_get_some vis_eq rq' _ (State d' (st_flashes s)) _
                  Hm' Hrow').
  - exists (Comment (next_id (c_id <$> tbl_comment (st_db s))) title body
              (req_now rq) (p_id P)).
    split; [|done].
    apply elem_of_order_by_desc, list_elem_of_filter. split; [done|].
    simpl. apply elem_of_app. right. left.
Qed.

Lemma accepted_comment_is_shown_witness :
  ∃ s' u comments,
    post sample_vis_eq
      (Request None POST {[ "title" := "hi"; "body" := "<i>there</i>" ]} 100)
      (p_id (Post 1 "public" "b1" None 10 1)) sample_state
    = (Return (redirect (blog_post (p_id (Post 1 "public" "b1" None 10 1)))), s')
    ∧ post sample_vis_eq (Request None GET ∅ 200)
        (p_id (Post 1 "public" "b1" None 10 1)) s'
      = (Return (render_template
                   (post_html (PostRow (Post 1 "public" "b1" None 10 1)
                                 (u_username u)) comments)), s')
    ∧ ∃ c, c ∈ comments ∧ c_title c = "hi" ∧ c_body c = "<i>there</i>"
           ∧ c_post_id c = p_id (Post 1 "public" "b1" None 10 1)
           ∧ c_created c
             = req_now (Request None POST
                          {[ "title" := "hi"; "body" := "<i>there</i>" ]} 100).
Proof.
  apply (accepted_comment_is_shown sample_vis_eq
           (Request None POST {[ "title" := "hi"; "body" := "<i>there</i>" ]} 100)
           (Request None GET ∅ 200)
           sample_state (Post 1 "public" "b1" None 10 1) "hi" "<i>there</i>").
  - exact sample_db_primary_keys.
  - exact sample_db_authors_exist.
  - simpl. set_solver.
  - reflexivity.
  - reflexivity.
  - by vm_compute.
  - done.
  - by vm_compute.
  - reflexivity.
  - reflexivity.
Defined.

(** X21. A deleted post is gone for everyone. After a successful
    [delete] of an id, whatever the schema's cascade: [get_post] of that
    id aborts with 404 for every viewer, no row of any viewer's listing
    has the id, and the single-post view renders no page at it. *)
Theorem deleted_post_is_gone cascade vis_eq rq id s s' rq' check :
  delete cascade rq id s = (Return (redirect blog_index), s') →
  get_post rq' id check s' = (Raise (HTTPException 404), s')
  ∧ (∃ posts,
       index vis_eq rq' s' = (Return (render_template (index_html posts)), s')
       ∧ ∀ r, r ∈ posts → p_id (row_post r) ≠ id)
  ∧ (∀ pg s'', post vis_eq rq' id s' ≠ (Return (render_template pg), s'')).
Proof.
  intros ->%delete_success_inv.
  assert (id ∉ p_id <$> tbl_post (delete_post cascade id (st_db s))) as Hid.
  { simpl. intros Hin. apply list_elem_of_fmap in Hin as (p & -> & Hp).
    by apply list_elem_of_filter in Hp as [? _]. }
  split_and!.
  - by apply run_get_post_missing.
  - eexists. split; [apply run_index|].
    intros r Hr E. apply elem_of_listing in Hr as [_ Hr].
    rewrite post_join_user_eq in Hr.
    apply list_elem_of_bind in Hr as (p & Hr & Hp).
    apply author_rows_row_post in Hr. rewrite Hr in E. subst id.
    apply Hid. by apply list_elem_of_fmap_2.
  - intros pg s''. apply run_post_none_no_page.
    by apply visible_row_missing.
Qed.

Lemma deleted_post_is_gone_witness :
  get_post (Request (Some alice) GET ∅ 200) 1 true
    (State (delete_post false 1 sample_db) [])
  = (Raise (HTTPException 404), State (delete_post false 1 sample_db) [])
  ∧ (∃ posts,
       index sample_vis_eq (Request (Some alice) GET ∅ 200)
         (State (delete_post false 1 sample_db) [])
       = (Return (render_template (index_html posts)),
          State (delete_post false 1 sample_db) [])
       ∧ ∀ r, r ∈ posts → p_id (row_post r) ≠ 1)
  ∧ (∀ pg s'',
       post sample_vis_eq (Request (Some alice) GET ∅ 200) 1
         (State (delete_post false 1 sample_db) [])
       ≠ (Return (render_template pg), s'')).
Proof.
  apply (deleted_post_is_gone false sample_vis_eq
           (Request (Some alice) POST ∅ 100) 1 sample_state
           (State (delete_post false 1 sample_db) [])
           (Request (Some alice) GET ∅ 200) true).
  by vm_compute.
Defined.

Lemma deleteComment_success_inv rq id s s' post_id :
  deleteComment rq id s = (Return (redirect (blog_post post_id)), s') →
  s' = State (delete_comment id (st_db s)) (st_flashes s).
Proof.
  unfold deleteComment, login_required.
  destruct (g_user rq) as [v|] eqn:Hg; [|done].
  rewrite run_bind.
  destruct (get_comment rq id true s) as [[r|e] s1] eqn:Hget; [|done].
  fetch_state. by intros [= _ <-].
Qed.

Lemma deleted_comment_unresolved id d :
  ¬ comment_resolves (delete_comment id d) id.
Proof.
  intros (c & p & u & Hc & E & _).
  apply elem_of_delete_comment in Hc as [_ Hne]. done.
Qed.

(** X22. A comment can be deleted once. After a successful
    [deleteComment] of an id, [get_comment] of that id aborts with 404
    for every viewer, and a second [deleteComment] by a logged-in
    viewer aborts with 404 and changes nothing. *)
Theorem deleted_comment_is_gone rq id s s' post_id rq' check :
  deleteComment rq id s = (Return (redirect (blog_post post_id)), s') →
  get_comment rq' id check s' = (Raise (HTTPException 404), s')
  ∧ (is_Some (g_user rq') →
     deleteComment rq' id s' = (Raise (HTTPException 404), s')).
Proof.
  intros ->%deleteComment_success_inv.
  pose proof (deleted_comment_unresolved id (st_db s)) as Hno.
  split; [by apply run_get_comment_unresolved|].
  intros [v Hg]. unfold deleteComment.
  rewrite (run_login_required _ _ v), run_bind by done.
  by rewrite run_get_comment_unresolved.
Qed.

Lemma deleted_comment_is_gone_witness :
  get_comment (Request (Some alice) POST ∅ 200) 2 true
    (State (delete_comment 2 sample_db) [])
  = (Raise (HTTPException 404), State (delete_comment 2 sample_db) [])
  ∧ (is_Some (g_user (Request (Some alice) POST ∅ 200)) →
     deleteComment (Request (Some alice) POST ∅ 200) 2
       (State (delete_comment 2 sample_db) [])
     = (Raise (HTTPException 404), State (delete_comment 2 sample_db) [])).
Proof.
  apply (deleted_comment_is_gone (Request (Some alice) POST ∅ 100) 2
           sample_state (State (delete_comment 2 sample_db) []) 2
           (Request (Some alice) POST ∅ 200) true).
  by vm_compute.
Defined.

(** X23. The author's [delete] of a stored post P removes P and no
    other post: the view redirects to the index, the post table is the
    old one without P, in the same order, the users are untouched, and
    the comments are untouched too unless the schema cascades, in which
    case exactly the comments with P's id are removed. *)
Theorem delete_by_author_removes_one_post cascade rq s P v :
  primary_keys (st_db s) → authors_exist (st_db s) → P ∈ tbl_post (st_db s) →
  g_user rq = Some v → u_id v = p_author_id P →
  ∃ d',
    delete cascade rq (p_id P) s
    = (Return (redirect blog_index), State d' (st_flashes s))
    ∧ tbl_user d' = tbl_user (st_db s)
    ∧ tbl_post d' = filter (λ q, q ≠ P) (tbl_post (st_db s))
    ∧ tbl_comment d'
      = if cascade
        then filter (λ c, c_post_id c ≠ p_id P) (tbl_comment (st_db s))
        else tbl_comment (st_db s).
Proof.
  intros Hpk Hfk HP Hg Hv.
  rewrite (run_delete_author cascade rq s P v) by done.
  eexists. split_and!; [done|done| |done].
  simpl. apply filter_ext_elem. intros q Hq. split.
  - intros Hne ->. done.
  - intros Hne E. apply Hne.
    by apply (stored_post_by_id (tbl_post (st_db s))); [apply Hpk|..].
Qed.

Lemma delete_by_author_removes_one_post_witness :
  ∃ d',
    delete false (Request (Some alice) POST ∅ 100)
      (p_id (Post 2 "private" "b2" (Some "1") 20 1)) sample_state
    = (Return (redirect blog_index), State d' (st_flashes sample_state))
    ∧ tbl_user d' = tbl_user (st_db sample_state)
    ∧ tbl_post d'
      = filter (λ q, q ≠ Post 2 "private" "b2" (Some "1") 20 1)
          (tbl_post (st_db sample_state))
    ∧ tbl_comment d'
      = if false
        then filter (λ c, c_post_id c
                          ≠ p_id (Post 2 "private" "b2" (Some "1") 20 1))
               (tbl_comment (st_db sample_state))
        else tbl_comment (st_db sample_state).
Proof.
  apply (delete_by_author_removes_one_post false
           (Request (Some alice) POST ∅ 100) sample_state
           (Post 2 "private" "b2" (Some "1") 20 1) alice).
  - exact sample_db_primary_keys.
  - exact sample_db_authors_exist.
  - simpl. set_solver.
  - reflexivity.
  - reflexivity.
Defined.

Lemma filter_out_fresh_post (posts : list post_rec) row :
  p_id row = next_id (p_id <$> posts) →
  filter (λ p, p_id p ≠ p_id row) (posts ++ [row]) = posts.
Proof.
  intros E. rewrite filter_app, filter_cons_False, filter_nil, app_nil_r
    by (intros Hne; by apply Hne).
  apply filter_all, Forall_forall. intros p Hp Heq.
  assert (p_id p < next_id (p_id <$> posts)) as Hlt
    by by apply next_id_above, list_elem_of_fmap_2.
  lia.
Qed.

(** X24. [delete] undoes [create]. After a successful POST to [create]
    by a stored user, the same user's [delete] of the new row's id
    succeeds and leaves the post table and the user table exactly as
    they were before the post was created. *)
Theorem create_then_delete_restores_posts
    clean_html cascade rq rq' s v title raw body vis :
  primary_keys (st_db s) → authors_exist (st_db s) →
  g_user rq = Some v → u_id v ∈ u_id <$> tbl_user (st_db s) →
  req_method rq = POST →
  req_form rq !! "title" = Some title → title ≠ "" →
  req_form rq !! "body" = Some raw → clean_html raw = Some body →
  req_form rq !! "visibility" = Some vis →
  g_user rq' = Some v →
  ∃ row s' s'',
    create clean_html rq s = (Return (redirect blog_index), s')
    ∧ tbl_post (st_db s') = tbl_post (st_db s) ++ [row]
    ∧ delete cascade rq' (p_id row) s' = (Return (redirect blog_index), s'')
    ∧ tbl_post (st_db s'') = tbl_post (st_db s)
    ∧ tbl_user (st_db s'') = tbl_user (st_db s).
Proof.
  intros Hpk Hfk Hg Hv Hm Ht Hne Hb Hc Hvis Hg'.
  rewrite (run_create_post clean_html rq s v title raw body vis) by done.
  rewrite bool_decide_eq_false_2 by done.
  set (d' := insert_post title body (maybeNone vis) (u_id v) (req_now rq)
               (st_db s)).
  destruct (insert_post_keeps_keys title body (maybeNone vis) (u_id v)
              (req_now rq) (st_db s) Hpk Hv Hfk) as [Hpk' Hfk'].
  fold d' in Hpk', Hfk'.
  set (row := Post (next_id (p_id <$> tbl_post (st_db s))) title body
                (maybeNone vis) (req_now rq) (u_id v)).
  assert (row ∈ tbl_post d') as Hrow.
  { simpl. apply elem_of_app. right. left. }
  exists row, (State d' (st_flashes s)).
  rewrite (run_delete_author cascade rq' (State d' (st_flashes s)) row v)
    by done.
  eexists. split_and!; [done|done|done| |done].
  by apply (filter_out_fresh_post (tbl_post (st_db s)) row).
Qed.

Lemma create_then_delete_restores_posts_witness :
  ∃ row s' s'',
    create sample_clean_html
      (Request (Some bob) POST
         {[ "title" := "mine"; "body" := "text"; "visibility" := "2" ]} 100)
      sample_state
    = (Return (redirect blog_index), s')
    ∧ tbl_post (st_db s') = tbl_post (st_db sample_state) ++ [row]
    ∧ delete true (Request (Some bob) POST ∅ 200) (p_id row) s'
      = (Return (redirect blog_index), s'')
    ∧ tbl_post (st_db s'') = tbl_post (st_db sample_state)
    ∧ tbl_user (st_db s'') = tbl_user (st_db sample_state).
Proof.
  apply (create_then_delete_restores_posts sample_clean_html true
           (Request (Some bob) POST
              {[ "title" := "mine"; "body" := "text"; "visibility" := "2" ]}
              100)
           (Request (Some bob) POST ∅ 200)
           sample_state bob "mine" "text" "<p>text</p>" "2").
  - exact sample_db_primary_keys.
  - exact sample_db_authors_exist.
  - reflexivity.
  - simpl. set_solver.
  - reflexivity.
  - by vm_compute.
  - done.
  - by vm_compute.
  - by vm_compute.
  - by vm_compute.
  - reflexivity.
Defined.

(** X25. [update] can publish a post. After the author's successful
    POST to [update] of a stored post with the visibility input "NULL",
    the listing of an absent viewer contains a post with that id, and
    it has the submitted title and body. *)
Theorem update_to_NULL_publishes vis_eq rq rq0 s P v title raw :
  primary_keys (st_db s) → authors_exist (st_db s) → P ∈ tbl_post (st_db s) →
  g_user rq = Some v → u_id v = p_author_id P → req_method rq = POST →
  req_form rq !! "title" = Some title → title ≠ "" →
  req_form rq !! "body" = Some raw →
  req_form rq !! "visibility" = Some "NULL" →
  g_user rq0 = None →
  ∃ s' posts,
    update rq (p_id P) s = (Return (redirect blog_index), s')
    ∧ index vis_eq rq0 s' = (Return (render_template (index_html posts)), s')
    ∧ Post (p_id P) title raw None (p_created P) (p_author_id P)
      ∈ row_post <$> posts.
Proof.
  intros Hpk Hfk HP Hg Hv Hm Ht Hne Hb Hvis Hg0.
  destruct (run_update_post rq s P v title raw "NULL") as (u & _ & _ & ->);
    try done.
  rewrite bool_decide_eq_false_2 by done.
  set (d' := update_post title raw (maybeNone "NULL") (p_id P) (st_db s)).
  destruct (update_post_keeps_keys title raw (maybeNone "NULL") (p_id P)
              (st_db s) Hpk Hfk) as [_ Hfk'].
  fold d' in Hfk'.
  set (P' := Post (p_id P) title raw None (p_created P) (p_author_id P)).
  assert (P' ∈ tbl_post d') as HP'.
  { simpl. apply list_elem_of_fmap. exists P.
    by rewrite bool_decide_eq_true_2. }
  do 2 eexists. split_and!; [done|apply run_index|].
  destruct (stored_post_joined d' P' Hfk' HP') as (u' & _ & _ & Hin).
  apply list_elem_of_fmap. exists (PostRow P' (u_username u')).
  split; [done|]. apply elem_of_listing. split; [|done].
  by rewrite Hg0.
Qed.

Lemma update_to_NULL_publishes_witness :
  ∃ s' posts,
    update (Request (Some alice) POST
              {[ "title" := "open"; "body" := "now"; "visibility" := "NULL" ]}
              100)
      (p_id (Post 2 "private" "b2" (Some "1") 20 1)) sample_state
    = (Return (redirect blog_index), s')
    ∧ index sample_vis_eq (Request None GET ∅ 200) s'
      = (Return (render_template (index_html posts)), s')
    ∧ Post (p_id (Post 2 "private" "b2" (Some "1") 20 1)) "open" "now" None
        (p_created (Post 2 "private" "b2" (Some "1") 20 1))
        (p_author_id (Post 2 "private" "b2" (Some "1") 20 1))
      ∈ row_post <$> posts.
Proof.
  apply (update_to_NULL_publishes sample_vis_eq
           (Request (Some alice) POST
              {[ "title" := "open"; "body" := "now"; "visibility" := "NULL" ]}
              100)
           (Request None GET ∅ 200)
           sample_state (Post 2 "private" "b2" (Some "1") 20 1) alice
           "open" "now").
  - exact sample_db_primary_keys.
  - exact sample_db_authors_exist.
  - simpl. set_solver.
  - reflexivity.
  - reflexivity.
  - reflexivity.
  - by vm_compute.
  - done.
  - by vm_compute.
  - by vm_compute.
  - reflexivity.
Defined.
